(** * SmartPill backend: dose resolution, take/snooze actions, voice intents
      and the compliance calendar of [main.py], embedded in Rocq.

    The development follows [src/main.py] function by function.

    - Python values: [str] is [string] (ASCII text), [int] is [Z], a list is
      a [list], a dict with a fixed set of keys is a record, the per-day
      tally dict (whose keys are status strings met in the store) is a
      [gmap string Z].
    - [datetime]: every datetime of the program is UTC-aware
      ([datetime.now(timezone.utc)], or values read back from the store), so
      a datetime is the number of microseconds since the midnight that starts
      day 0 of the proleptic Gregorian ordinal ([date.toordinal()]), and a
      [date] is its ordinal. Clock readings are far from [datetime.min] and
      [datetime.max], so [timedelta] arithmetic stays in range.
    - The clock: each [datetime.now(timezone.utc)] of a handler is a
      parameter of the handler, in the order the source reads them.
    - The store: [db] is configured ([collection] does not raise); the
      handlers thread a [Database] value, a collection is the list of its
      documents in natural (insertion) order, and a value read back is the
      value written.
    - Exceptions: a function that can raise returns a [result].
    - Floats: the only float of the handlers, [total_seconds() // 60], is an
      exact floor on the differences met here (microsecond counts within the
      53-bit range), so it is the integer floor division. *)

From Stdlib Require Import ZArith String Ascii List Bool Lia DecimalString Sorted.
From stdpp Require Import base option list gmap strings.
From Equations Require Import Equations.
Import ListNotations.

Local Open Scope string_scope.
Local Open Scope list_scope.
Local Open Scope Z_scope.

(** ** Exceptions *)

Inductive exn : Type :=
| ValueError
| IndexError
| OverflowError.

Inductive result (A : Type) : Type :=
| Ok (a : A)
| Raise (e : exn).
Arguments Ok {A} a.
Arguments Raise {A} e.

#[global] Instance result_ret : MRet result := fun A a => Ok a.

#[global] Instance result_bind : MBind result := fun A B k r =>
  match r with
  | Ok a => k a
  | Raise e => Raise e
  end.

#[global] Instance result_fmap : FMap result := fun A B f r =>
  match r with
  | Ok a => Ok (f a)
  | Raise e => Raise e
  end.

(** ** Python built-ins used by the handlers *)

Module Py.

(** [str.isspace] on ASCII: TAB, LF, VT, FF, CR, FS, GS, RS, US, space. *)
Definition isspace (c : ascii) : bool :=
  let n := N_of_ascii c in
  (((9 <=? n) && (n <=? 13)) || ((28 <=? n) && (n <=? 32)))%N.

Definition isdigit (c : ascii) : bool :=
  let n := N_of_ascii c in ((48 <=? n) && (n <=? 57))%N.

Definition digit_value (c : ascii) : Z := Z.of_N (N_of_ascii c) - 48.

Fixpoint lstrip (s : string) : string :=
  match s with
  | EmptyString => EmptyString
  | String c s' => if isspace c then lstrip s' else s
  end.

Definition reverse (s : string) : string :=
  string_of_list_ascii (List.rev (list_ascii_of_string s)).

Definition rstrip (s : string) : string := reverse (lstrip (reverse s)).

(** [s.strip()] *)
Definition strip (s : string) : string := rstrip (lstrip s).

Definition lower_char (c : ascii) : ascii :=
  let n := N_of_ascii c in
  if ((65 <=? n) && (n <=? 90))%N then ascii_of_N (n + 32) else c.

(** [s.lower()] *)
Fixpoint lower (s : string) : string :=
  match s with
  | EmptyString => EmptyString
  | String c s' => String (lower_char c) (lower s')
  end.

(** [s.startswith(p)] *)
Definition startswith (p s : string) : bool := String.prefix p s.

(** [sub in s] on strings: [sub] occurs at some position of [s]. *)
Fixpoint contains (sub s : string) : bool :=
  String.prefix sub s ||
  match s with
  | EmptyString => false
  | String _ s' => contains sub s'
  end.

(** [s.split(sep)] for a one-character separator: always at least one
    piece, empty pieces are kept. *)
Fixpoint split (sep : ascii) (s : string) : list string :=
  match s with
  | EmptyString => [EmptyString]
  | String c s' =>
      if Ascii.eqb c sep then EmptyString :: split sep s'
      else match split sep s' with
           | [] => [String c EmptyString]
           | p :: ps => String c p :: ps
           end
  end.

(** The digits of a decimal literal: digits, with single underscores
    allowed between two digits. [prev] tells whether the previous
    character was a digit. *)
Fixpoint int_digits (acc : Z) (prev : bool) (s : string) : option Z :=
  match s with
  | EmptyString => if prev then Some acc else None
  | String c s' =>
      if isdigit c then int_digits (acc * 10 + digit_value c) true s'
      else if Ascii.eqb c "_" then
             if prev then int_digits acc false s' else None
      else None
  end.

(** The whitespace [int] skips around an ASCII literal (C [isspace]): TAB,
    LF, VT, FF, CR and space; FS, GS, RS and US are not skipped. *)
Definition c_isspace (c : ascii) : bool :=
  let n := N_of_ascii c in
  (((9 <=? n) && (n <=? 13)) || (n =? 32))%N.

Fixpoint skip_spaces (s : string) : string :=
  match s with
  | EmptyString => EmptyString
  | String c s' => if c_isspace c then skip_spaces s' else s
  end.

(** [sys.get_int_max_str_digits()]: the default limit on the number of
    digits of a decimal literal that [int] converts. *)
Definition int_max_str_digits : Z := 4300.

(** The number of digits of a literal; underscores do not count, leading
    zeros do. *)
Fixpoint count_digits (s : string) : Z :=
  match s with
  | EmptyString => 0
  | String c s' => (if isdigit c then 1 else 0) + count_digits s'
  end.

(** The literal after the sign: a literal of more than
    [int_max_str_digits] digits raises [ValueError] like a malformed one. *)
Definition int_literal (r : string) : option Z :=
  if int_max_str_digits <? count_digits r then None
  else int_digits 0 false r.

(** [int(s)] for a string, base 10: surrounding whitespace is skipped, one
    optional sign, then the digits. [None] stands for [ValueError]. *)
Definition int (s : string) : option Z :=
  match reverse (skip_spaces (reverse (skip_spaces s))) with
  | String "+" r => int_literal r
  | String "-" r => Z.opp <$> int_literal r
  | r => int_literal r
  end.

(** [f"{n}"] / [str(n)] for an int. *)
Definition str (n : Z) : string :=
  DecimalString.NilZero.string_of_int (Z.to_int n).

(** [x in xs] for a list of ints. *)
Definition mem (x : Z) (xs : list Z) : bool := existsb (Z.eqb x) xs.

(** [list.sort(key=...)]: the sort is stable, so its result is the one of
    a stable insertion sort. *)
Section Sort.
Context {A : Type} (key : A -> Z).

Fixpoint insert (x : A) (l : list A) : list A :=
  match l with
  | [] => [x]
  | y :: l' => if key x <=? key y then x :: l else y :: insert x l'
  end.

Fixpoint sort (l : list A) : list A :=
  match l with
  | [] => []
  | x :: l' => insert x (sort l')
  end.
End Sort.

End Py.

(** ** [datetime], [date] and [timedelta] *)

Module Datetime.

Definition us_per_second : Z := 1000000.
Definition us_per_minute : Z := 60 * us_per_second.
Definition us_per_hour : Z := 60 * us_per_minute.
Definition us_per_day : Z := 24 * us_per_hour.

(** [datetime(...)] of the day with ordinal [ordinal], in UTC. *)
Definition make (ordinal hour minute second microsecond : Z) : Z :=
  ordinal * us_per_day + hour * us_per_hour + minute * us_per_minute
  + second * us_per_second + microsecond.

(** [dt.date()], as the ordinal of the day. *)
Definition date (dt : Z) : Z := dt / us_per_day.

(** [d.weekday()]: Monday is 0. *)
Definition weekday (d : Z) : Z := (d + 6) mod 7.

Definition c_int (n : Z) : bool := (- 2 ^ 31 <=? n) && (n <? 2 ^ 31).

(** [dt.replace(hour=hour, minute=minute, second=0, microsecond=0)]:
    the arguments are converted to C ints, then range-checked. *)
Definition replace (dt hour minute : Z) : result Z :=
  if negb (c_int hour && c_int minute) then Raise OverflowError
  else if negb ((0 <=? hour) && (hour <=? 23)) then Raise ValueError
  else if negb ((0 <=? minute) && (minute <=? 59)) then Raise ValueError
  else Ok (make (date dt) hour minute 0 0).

(** [dt + timedelta(minutes=m)] *)
Definition add_minutes (dt m : Z) : Z := dt + m * us_per_minute.

(** [dt - timedelta(days=n)] *)
Definition sub_days (dt n : Z) : Z := dt - n * us_per_day.

(** [(a - b).total_seconds() // 60], a float floor division whose result
    is the integer floor of the difference in minutes. *)
Definition minutes_between (a b : Z) : Z := (a - b) / us_per_minute.

End Datetime.

(** ** Documents and the store *)

(** [schemas.MedicationSchedule] *)
Module MedicationSchedule.
Record t : Type := mk {
  days_of_week : list Z;
  times : list string
}.
End MedicationSchedule.

(** A document of the [medication] collection: [schemas.Medication] with
    the [_id] the store gave it, already as [str(m.get("_id"))]. *)
Module Medication.
Record t : Type := mk {
  _id : string;
  user_id : string;
  name : string;
  dosage : string;
  pill_image_url : option string;
  schedule : MedicationSchedule.t
}.
End Medication.

(** What a [scheduled_at] field read back from the store can hold. *)
Inductive stored_time : Type :=
| TDatetime (dt : Z)
| TString (s : string)
| TOther.

(** A document of the [doselog] collection ([schemas.DoseLog]); a field set
    by no write is absent ([None]). *)
Module DoseLog.
Record t : Type := mk {
  user_id : string;
  medication_id : string;
  scheduled_at : stored_time;
  status : option string;
  taken_at : option Z;
  snooze_until : option Z;
  updated_at : option Z
}.
End DoseLog.

Record Database : Type := mkDatabase {
  medication : list Medication.t;
  doselog : list DoseLog.t
}.

#[global] Instance stored_time_eq_dec : EqDecision stored_time.
Proof. solve_decision. Defined.

(** Modelled from the spec: the [database] module ([db], the store client)
    is not part of the sources; the collection operations the handlers call
    on it follow section 6 of the specification (find by user, find one by
    exact key, upsert with set-on-conflict semantics, create if absent). *)
Module Store.

(** The key [(user, medication, scheduled instant)] of a dose event. *)
Record key : Type := mkKey {
  k_user_id : string;
  k_medication_id : string;
  k_scheduled_at : Z
}.

Definition matches (q : key) (lg : DoseLog.t) : bool :=
  bool_decide (DoseLog.user_id lg = k_user_id q)
  && bool_decide (DoseLog.medication_id lg = k_medication_id q)
  && bool_decide (DoseLog.scheduled_at lg = TDatetime (k_scheduled_at q)).

(** [collection("medication").find({"user_id": user_id})] *)
Definition find_medications (db : Database) (user_id : string)
  : list Medication.t :=
  filter (fun m => Medication.user_id m = user_id) (medication db).

(** [collection("doselog").find({"user_id": user_id})] *)
Definition find_doselogs (db : Database) (user_id : string)
  : list DoseLog.t :=
  filter (fun lg => DoseLog.user_id lg = user_id) (doselog db).

(** [collection("doselog").find_one(q)]: the first match. *)
Definition find_one (db : Database) (q : key) : option DoseLog.t :=
  List.find (matches q) (doselog db).

(** The document an upsert creates: the fields of the query. *)
Definition fresh (q : key) : DoseLog.t :=
  DoseLog.mk (k_user_id q) (k_medication_id q)
             (TDatetime (k_scheduled_at q)) None None None None.

(** [update_one(q, {"$set": ...}, upsert=True)] on a collection: [set] is
    applied to the first match, or to a fresh document added at the end. *)
Fixpoint upsert (q : key) (set : DoseLog.t -> DoseLog.t)
         (c : list DoseLog.t) : list DoseLog.t :=
  match c with
  | [] => [set (fresh q)]
  | lg :: c' => if matches q lg then set lg :: c' else lg :: upsert q set c'
  end.

Definition update_one (db : Database) (q : key)
           (set : DoseLog.t -> DoseLog.t) : Database :=
  mkDatabase (medication db) (upsert q set (doselog db)).

End Store.

(** ** [get_todays_doses] *)

(** An item of the list [get_todays_doses] returns. [scheduled_at] stands
    for the string [sched_dt.isoformat()]: all these strings have the shape
    [YYYY-MM-DDTHH:MM:00+00:00], so comparing them compares the instants,
    [startswith(date.isoformat())] compares the dates, and
    [datetime.fromisoformat] gives [sched_dt] back. *)
Module Dose.
Record t : Type := mk {
  medication_id : string;
  name : string;
  dosage : string;
  pill_image_url : option string;
  scheduled_at : Z;
  status : option string
}.
End Dose.

(** [hour, minute = map(int, t.split(":"))] under [try]/[except Exception]:
    [None] when the unpacking or one of the conversions raises. *)
Definition parse_time (t : string) : option (Z * Z) :=
  match Py.split ":" t with
  | [h; m] =>
      match Py.int h, Py.int m with
      | Some hour, Some minute => Some (hour, minute)
      | _, _ => None
      end
  | _ => None
  end.

(** The body of [for t in times], appending to [due]. *)
Fixpoint times_loop (db : Database) (user_id : string) (now : Z)
         (m : Medication.t) (times : list string) (due : list Dose.t)
  : result (list Dose.t) :=
  match times with
  | [] => Ok due
  | t :: times' =>
      match parse_time t with
      | None => times_loop db user_id now m times' due
      | Some (hour, minute) =>
          sched_dt ← Datetime.replace now hour minute;
          let log := Store.find_one db
                       (Store.mkKey user_id (Medication._id m) sched_dt) in
          let status := match log with
                        | Some lg => DoseLog.status lg
                        | None => Some "pending"
                        end in
          times_loop db user_id now m times'
            (due ++ [Dose.mk (Medication._id m) (Medication.name m)
                             (Medication.dosage m)
                             (Medication.pill_image_url m)
                             sched_dt status])
      end
  end.

(** The body of [for m in meds]. *)
Fixpoint meds_loop (db : Database) (user_id : string) (now : Z)
         (weekday : Z) (meds : list Medication.t) (due : list Dose.t)
  : result (list Dose.t) :=
  match meds with
  | [] => Ok due
  | m :: meds' =>
      let schedule := Medication.schedule m in
      let days := MedicationSchedule.days_of_week schedule in
      let times := MedicationSchedule.times schedule in
      if negb (Py.mem weekday days) then
        meds_loop db user_id now weekday meds' due
      else
        due' ← times_loop db user_id now m times due;
        meds_loop db user_id now weekday meds' due'
  end.

Definition get_todays_doses (db : Database) (user_id : string) (now : Z)
  : result (list Dose.t) :=
  let weekday := Datetime.weekday (Datetime.date now) in
  let meds := Store.find_medications db user_id in
  due ← meds_loop db user_id now weekday meds [];
  let due := Py.sort Dose.scheduled_at due in
  let today := Datetime.date now in
  Ok (filter (fun d => Datetime.date (Dose.scheduled_at d) = today) due).

(** ** [mark_taken] and [snooze] *)

Module TakeActionIn.
Record t : Type := mk {
  user_id : string;
  medication_id : string;
  scheduled_at : Z
}.
End TakeActionIn.

Module SnoozeIn.
Record t : Type := mk {
  user_id : string;
  medication_id : string;
  scheduled_at : Z;
  minutes : Z
}.
(** [minutes: int = 15] *)
Definition default_minutes : Z := 15.
End SnoozeIn.

(** [{"$set": {"status": "taken", "taken_at": ..., "updated_at": ...}}] *)
Definition set_taken (taken_at updated_at : Z) (lg : DoseLog.t) : DoseLog.t :=
  DoseLog.mk (DoseLog.user_id lg) (DoseLog.medication_id lg)
             (DoseLog.scheduled_at lg) (Some "taken") (Some taken_at)
             (DoseLog.snooze_until lg) (Some updated_at).

(** [{"$set": {"status": "snoozed", "snooze_until": ..., "updated_at": ...}}] *)
Definition set_snoozed (until updated_at : Z) (lg : DoseLog.t) : DoseLog.t :=
  DoseLog.mk (DoseLog.user_id lg) (DoseLog.medication_id lg)
             (DoseLog.scheduled_at lg) (Some "snoozed") (DoseLog.taken_at lg)
             (Some until) (Some updated_at).

(** [mark_taken]: [now1] and [now2] are the two clock readings of the
    [update] dict, in source order. The response is [{"ok": True}]. *)
Definition mark_taken (payload : TakeActionIn.t) (now1 now2 : Z)
           (db : Database) : Database :=
  let q := Store.mkKey (TakeActionIn.user_id payload)
                       (TakeActionIn.medication_id payload)
                       (TakeActionIn.scheduled_at payload) in
  Store.update_one db q (set_taken now1 now2).

(** [snooze] where [until] is within the range of [datetime]: [now1] is
    the clock reading of [until], [now2] the one of [updated_at]. Returns
    [until] (the response carries its isoformat) and the store.
    [snooze_or_raise] below adds the [OverflowError] of
    [now + timedelta(minutes=payload.minutes)]. *)
Definition snooze (payload : SnoozeIn.t) (now1 now2 : Z) (db : Database)
  : Z * Database :=
  let until := Datetime.add_minutes now1 (SnoozeIn.minutes payload) in
  let q := Store.mkKey (SnoozeIn.user_id payload)
                       (SnoozeIn.medication_id payload)
                       (SnoozeIn.scheduled_at payload) in
  (until, Store.update_one db q (set_snoozed until now2)).

(** ** [voice_command] *)

Module VoiceCommandIn.
Record t : Type := mk {
  text : string;
  user_id : string
}.
End VoiceCommandIn.

(** [d["status"] in ("pending", "snoozed")] *)
Definition is_pending (d : Dose.t) : bool :=
  bool_decide (Dose.status d = Some "pending")
  || bool_decide (Dose.status d = Some "snoozed").

(** [minutes_from_now], the sort key of the query intent:
    [abs(int((dt - now).total_seconds() // 60))]. *)
Definition minutes_from_now (now : Z) (d : Dose.t) : Z :=
  Z.abs (Datetime.minutes_between (Dose.scheduled_at d) now).

(** The [for m in [5,10,15,20,30,45,60]] loop with its [break]. *)
Fixpoint ladder_loop (ladder : list Z) (text_lower : string) (minutes : Z)
  : Z :=
  match ladder with
  | [] => minutes
  | m :: ladder' =>
      if Py.contains (Py.str m) text_lower then m
      else ladder_loop ladder' text_lower minutes
  end.

Definition extract_minutes (text_lower : string) : Z :=
  ladder_loop [5; 10; 15; 20; 30; 45; 60] text_lower 15.

Definition is_query_intent (text_lower : string) : bool :=
  Py.contains "what" text_lower
  && (Py.contains "medicine" text_lower
      || Py.contains "medication" text_lower
      || Py.contains "take now" text_lower).

Definition is_reminder_intent (text_lower : string) : bool :=
  Py.startswith "remind" text_lower && Py.contains "minute" text_lower.

Definition nothing_due : string := "You have no medication due right now.".

Definition take_response (top : Dose.t) : string :=
  "It's medication time. Please take " ++ Dose.dosage top ++ " of "
  ++ Dose.name top ++ ".".

Definition remind_nothing_due (minutes : Z) : string :=
  "Okay, I'll remind you in " ++ Py.str minutes
  ++ " minutes, but there is nothing due right now.".

Definition remind_response (minutes : Z) : string :=
  "Okay, I'll remind you in " ++ Py.str minutes ++ " minutes.".

Definition not_understood : string :=
  "Sorry, I didn't understand. You can ask: 'What medicine do I take now?' or say 'Remind for 15 minutes later.'".

(** [voice_command]: [now] is the clock reading of the branch taken (each
    intent reads the clock once). Returns the ["response"] text and the
    store. *)
Definition voice_command (cmd : VoiceCommandIn.t) (now : Z) (db : Database)
  : result (string * Database) :=
  let text_lower := Py.strip (Py.lower (VoiceCommandIn.text cmd)) in
  if is_query_intent text_lower then
    doses ← get_todays_doses db (VoiceCommandIn.user_id cmd) now;
    let pending := filter (fun d => is_pending d = true) doses in
    match pending with
    | [] => Ok (nothing_due, db)
    | _ =>
        match Py.sort (minutes_from_now now) pending with
        | top :: _ => Ok (take_response top, db)
        | [] => Raise IndexError
        end
    end
  else if is_reminder_intent text_lower then
    let minutes := extract_minutes text_lower in
    doses ← get_todays_doses db (VoiceCommandIn.user_id cmd) now;
    let pending := filter (fun d => is_pending d = true) doses in
    match pending with
    | [] => Ok (remind_nothing_due minutes, db)
    | top :: _ =>
        let until := Datetime.add_minutes now minutes in
        let q := Store.mkKey (VoiceCommandIn.user_id cmd)
                             (Dose.medication_id top)
                             (Dose.scheduled_at top) in
        Ok (remind_response minutes,
            Store.update_one db q (set_snoozed until now))
    end
  else Ok (not_understood, db).

(** ** [caregiver_compliance] *)

(** An item of the ["calendar"] list; [date] stands for [d.isoformat()]. *)
Module CalendarEntry.
Record t : Type := mk {
  date : Z;
  status : string
}.
End CalendarEntry.

(** [{"taken":0,"missed":0,"pending":0}] *)
Definition empty_tally : gmap string Z :=
  <["taken" := 0]> (<["missed" := 0]> (<["pending" := 0]> ∅)).

(** [d.get(k, 0)] *)
Definition get0 (d : gmap string Z) (k : string) : Z := default 0 (d !! k).

(** The [symbol] computed from the tally [st] of a day. *)
Definition symbol_of (st : gmap string Z) : string :=
  if 0 <? get0 st "missed" then "missed"
  else if (0 <? get0 st "taken") && (get0 st "pending" =? 0) then "taken"
  else "pending".

(** The [while d <= now.date()] loop, appending to [calendar]. *)
Equations? calendar_loop (day_status : gmap Z (gmap string Z))
           (d last : Z) (calendar : list CalendarEntry.t)
  : list CalendarEntry.t by wf (Z.to_nat (last + 1 - d)) lt :=
  calendar_loop day_status d last calendar with decide (d <= last) => {
    | left _ =>
        let st := default empty_tally (day_status !! d) in
        calendar_loop day_status (d + 1) last
          (calendar ++ [CalendarEntry.mk d (symbol_of st)]);
    | right _ => calendar }.
Proof. lia. Qed.

Section Compliance.

(** [datetime.fromisoformat(s).date()] for a string read back from the
    store; [None] when it raises. *)
Variable fromisoformat_date : string -> option Z.

(** The day of a log, or [None] where the loop does [continue]. *)
Definition log_day (lg : DoseLog.t) : option Z :=
  match DoseLog.scheduled_at lg with
  | TDatetime dt => Some (Datetime.date dt)
  | TString s => fromisoformat_date s
  | TOther => None
  end.

(** The body of [for lg in logs]. *)
Definition tally_step (day_status : gmap Z (gmap string Z))
           (lg : DoseLog.t) : gmap Z (gmap string Z) :=
  match log_day lg with
  | None => day_status
  | Some day =>
      let status := default "pending" (DoseLog.status lg) in
      let prev := default empty_tally (day_status !! day) in
      let prev := <[status := get0 prev status + 1]> prev in
      <[day := prev]> day_status
  end.

Definition caregiver_compliance (db : Database) (user_id : string)
           (now : Z) : list CalendarEntry.t :=
  let start := Datetime.date (Datetime.sub_days now 30) in
  let logs := Store.find_doselogs db user_id in
  let day_status := fold_left tally_step logs ∅ in
  calendar_loop day_status start (Datetime.date now) [].

(** The status a log is tallied under: [lg.get("status", "pending")]. *)
Definition tallied_status (lg : DoseLog.t) : string :=
  default "pending" (DoseLog.status lg).

(** The number of stored events of [logs] that fall on day [d] and are
    tallied under status [s]. *)
Definition count_events (logs : list DoseLog.t) (d : Z) (s : string) : Z :=
  Z.of_nat (length (filter (fun lg => log_day lg = Some d
                                      /\ tallied_status lg = s) logs)).

End Compliance.

(** ** Notions used to state the properties *)

(** The store key of an item of the today list of [user_id]. *)
Definition dose_key (user_id : string) (d : Dose.t) : Store.key :=
  Store.mkKey user_id (Dose.medication_id d) (Dose.scheduled_at d).

#[global] Instance key_eq_dec : EqDecision Store.key.
Proof. solve_decision. Defined.

Definition with_status (s : option string) (d : Dose.t) : Dose.t :=
  Dose.mk (Dose.medication_id d) (Dose.name d) (Dose.dosage d)
          (Dose.pill_image_url d) (Dose.scheduled_at d) s.

(** The today list seen after the event under key [q] became "snoozed":
    the items of that key report it, the others are unchanged. *)
Definition reports_snoozed (user_id : string) (q : Store.key) (d : Dose.t)
  : Dose.t :=
  if decide (dose_key user_id d = q) then with_status (Some "snoozed") d
  else d.

(** The entry with the least key, the first of them in list order. *)
Fixpoint first_min {A : Type} (key : A -> Z) (l : list A) : option A :=
  match l with
  | [] => None
  | x :: l' =>
      match first_min key l' with
      | None => Some x
      | Some y => if key x <=? key y then Some x else Some y
      end
  end.

(** Two dose events that differ at most in [updated_at]. *)
Definition same_but_updated_at (a b : DoseLog.t) : Prop :=
  DoseLog.user_id a = DoseLog.user_id b
  /\ DoseLog.medication_id a = DoseLog.medication_id b
  /\ DoseLog.scheduled_at a = DoseLog.scheduled_at b
  /\ DoseLog.status a = DoseLog.status b
  /\ DoseLog.taken_at a = DoseLog.taken_at b
  /\ DoseLog.snooze_until a = DoseLog.snooze_until b.

(** Two dose events that differ at most in [taken_at] and [updated_at]. *)
Definition same_but_timestamps (a b : DoseLog.t) : Prop :=
  DoseLog.user_id a = DoseLog.user_id b
  /\ DoseLog.medication_id a = DoseLog.medication_id b
  /\ DoseLog.scheduled_at a = DoseLog.scheduled_at b
  /\ DoseLog.status a = DoseLog.status b
  /\ DoseLog.snooze_until a = DoseLog.snooze_until b.

(** The day rule as the specification words it, on the three counts. *)
Definition day_rule (missed taken pending : Z) : string :=
  if decide (missed > 0) then "missed"
  else if decide (taken > 0 /\ pending = 0) then "taken"
  else "pending".

(** A write that leaves the key fields of a dose event alone. *)
Definition keeps_key (set : DoseLog.t -> DoseLog.t) : Prop :=
  forall lg, DoseLog.user_id (set lg) = DoseLog.user_id lg
             /\ DoseLog.medication_id (set lg) = DoseLog.medication_id lg
             /\ DoseLog.scheduled_at (set lg) = DoseLog.scheduled_at lg.

(** The key a take payload addresses. *)
Definition take_key (p : TakeActionIn.t) : Store.key :=
  Store.mkKey (TakeActionIn.user_id p) (TakeActionIn.medication_id p)
              (TakeActionIn.scheduled_at p).

(** The status [get_todays_doses] resolves for the dose event under [q]. *)
Definition resolved_status (db : Database) (q : Store.key) : option string :=
  match Store.find_one db q with
  | Some lg => DoseLog.status lg
  | None => Some "pending"
  end.

(** The count the tally [day_status] holds for day [d] under status [s]. *)
Definition tally_of (day_status : gmap Z (gmap string Z)) (d : Z)
           (s : string) : Z :=
  get0 (default empty_tally (day_status !! d)) s.

(** ** Sample data: a Monday (2024-01-01, ordinal 738886) of user ["u1"] *)

Module Sample.

Definition monday : Z := 738886.

Definition every_day : list Z := [0; 1; 2; 3; 4; 5; 6].

Definition med (_id name dosage : string) (times : list string)
  : Medication.t :=
  Medication.mk _id "u1" name dosage None
                (MedicationSchedule.mk every_day times).

Definition dose (_id name dosage : string) (hour minute : Z)
           (status : string) : Dose.t :=
  Dose.mk _id name dosage None (Datetime.make monday hour minute 0 0)
          (Some status).

(** Two medications due at 08:00 and 20:00, nothing logged. *)
Definition db_morning_evening : Database :=
  mkDatabase [med "m1" "Aspirin" "100mg" ["08:00"];
              med "m2" "Metformin" "500mg" ["20:00"]] [].

(** Two medications due at 09:00 and 09:01, nothing logged. *)
Definition db_adjacent : Database :=
  mkDatabase [med "m1" "Aspirin" "100mg" ["09:00"];
              med "m2" "Metformin" "500mg" ["09:01"]] [].

(** One medication due at 09:05, one at 10:00 whose event is snoozed. *)
Definition db_five_sixty : Database :=
  mkDatabase [med "m1" "Aspirin" "100mg" ["10:00"];
              med "m2" "Metformin" "500mg" ["09:05"]]
             [DoseLog.mk "u1" "m1"
                (TDatetime (Datetime.make monday 10 0 0 0))
                (Some "snoozed") None
                (Some (Datetime.make monday 10 0 0 0))
                (Some (Datetime.make monday 8 0 0 0))].

(** One medication with a well-formed and two malformed time entries. *)
Definition db_malformed : Database :=
  mkDatabase [med "m1" "Aspirin" "100mg" ["abc"; "08:00"; "25:99"]] [].

(** No medication, one snoozed event on the Monday. *)
Definition db_snoozed_day : Database :=
  mkDatabase []
             [DoseLog.mk "u1" "m1"
                (TDatetime (Datetime.make monday 8 0 0 0))
                (Some "snoozed") None
                (Some (Datetime.make monday 8 15 0 0))
                (Some (Datetime.make monday 8 0 0 0))].

Definition take_m1_0800 : TakeActionIn.t :=
  TakeActionIn.mk "u1" "m1" (Datetime.make monday 8 0 0 0).

End Sample.

(** ** Further handlers *)

(** [dt.hour] and [dt.minute] *)
Definition hour_of (dt : Z) : Z :=
  (dt mod Datetime.us_per_day) / Datetime.us_per_hour.

Definition minute_of (dt : Z) : Z :=
  (dt mod Datetime.us_per_hour) / Datetime.us_per_minute.

(** [compute_current_window]: [now.replace(second=0, microsecond=0)]. *)
Definition compute_current_window (now : Z) : Z :=
  Datetime.make (Datetime.date now) (hour_of now) (minute_of now) 0 0.

(** [datetime.min] and [datetime.max], in UTC. *)
Definition datetime_min : Z := Datetime.make 1 0 0 0 0.
Definition datetime_max : Z := Datetime.make 3652059 23 59 59 999999.

Definition in_datetime_range (dt : Z) : bool :=
  (datetime_min <=? dt) && (dt <=? datetime_max).

(** [snooze] with its exception: for a clock reading [now1],
    [now1 + timedelta(minutes=payload.minutes)] raises [OverflowError] when
    the sum leaves the range of [datetime] (the minutes are the caller's),
    before [update_one]: the store is then the one the handler got. *)
Definition snooze_or_raise (payload : SnoozeIn.t) (now1 now2 : Z)
           (db : Database) : result Z * Database :=
  if in_datetime_range (Datetime.add_minutes now1 (SnoozeIn.minutes payload))
  then (Ok (fst (snooze payload now1 now2 db)),
        snd (snooze payload now1 now2 db))
  else (Raise OverflowError, db).

(** [today_meds]: [now] is its clock reading; the response is
    [{"items": doses}]. *)
Definition today_meds (db : Database) (user_id : string) (now : Z)
  : result (list Dose.t) :=
  get_todays_doses db user_id now.

(** ** Further notions used to state the properties *)

(** A time entry that does not make [get_todays_doses] raise: it does not
    parse, or it parses to an hour in 0..23 and a minute in 0..59. *)
Definition entry_ok (t : string) : Prop :=
  match parse_time t with
  | None => True
  | Some (hour, minute) => 0 <= hour <= 23 /\ 0 <= minute <= 59
  end.

(** The medications of [user_id] scheduled on the weekday of [now]. *)
Definition scheduled_today (db : Database) (user_id : string) (now : Z)
  : list Medication.t :=
  List.filter
    (fun m => Py.mem (Datetime.weekday (Datetime.date now))
                (MedicationSchedule.days_of_week (Medication.schedule m)))
    (Store.find_medications db user_id).

(** The item a time entry [t] of [m] stands for, if it parses. *)
Definition item_of (db : Database) (user_id : string) (now : Z)
           (m : Medication.t) (t : string) : option Dose.t :=
  match parse_time t with
  | None => None
  | Some (hour, minute) =>
      let sched_dt := Datetime.make (Datetime.date now) hour minute 0 0 in
      Some (Dose.mk (Medication._id m) (Medication.name m)
                    (Medication.dosage m) (Medication.pill_image_url m)
                    sched_dt
                    (resolved_status db
                       (Store.mkKey user_id (Medication._id m) sched_dt)))
  end.

Definition items_of (db : Database) (user_id : string) (now : Z)
           (m : Medication.t) : list Dose.t :=
  omap (item_of db user_id now m)
       (MedicationSchedule.times (Medication.schedule m)).

(** The entries of the medications scheduled today. *)
Definition entries_today_ok (db : Database) (user_id : string) (now : Z)
  : Prop :=
  Forall (fun m => Forall entry_ok
                     (MedicationSchedule.times (Medication.schedule m)))
         (scheduled_today db user_id now).

(** The today list seen after the event under key [q] got status [s]. *)
Definition reports (s : string) (user_id : string) (q : Store.key)
           (d : Dose.t) : Dose.t :=
  if decide (dose_key user_id d = q) then with_status (Some s) d else d.

(** The key fields of a stored dose event. *)
Definition doc_key (lg : DoseLog.t) : string * string * stored_time :=
  (DoseLog.user_id lg, DoseLog.medication_id lg, DoseLog.scheduled_at lg).

(** No two stored dose events share their key fields. *)
Definition unique_keys (db : Database) : Prop :=
  NoDup (doc_key <$> doselog db).

(** Every stored dose event has one of the two statuses the handlers
    write. *)
Definition written_statuses (db : Database) : Prop :=
  Forall (fun lg => DoseLog.status lg = Some "taken"
                    \/ DoseLog.status lg = Some "snoozed") (doselog db).

(** A number below 100 on two digits, and a time of day as [HH:MM]. *)
Definition two_digits (n : Z) : string :=
  if n <? 10 then String "0" (Py.str n) else Py.str n.

Definition hh_mm (hour minute : Z) : string :=
  two_digits hour ++ ":" ++ two_digits minute.

(** ** Further sample data *)

Module Scenario.

Definition tuesday : Z := Sample.monday + 1.

(** A medication of ["u1"] scheduled on Monday, Wednesday and Friday. *)
Definition db_mon_wed_fri : Database :=
  mkDatabase [Medication.mk "m1" "u1" "Aspirin" "100mg" None
                (MedicationSchedule.mk [0; 2; 4] ["08:00"; "20:00"])] [].

(** The evening dose before the morning dose in the times list, and an
    entry that does not parse. *)
Definition db_unordered : Database :=
  mkDatabase [Sample.med "m1" "Aspirin" "100mg" ["20:00"; "soon"; "08:00"]]
             [].

(** One missed and one taken event of ["u1"] on the Monday. *)
Definition db_missed_taken : Database :=
  mkDatabase []
             [DoseLog.mk "u1" "m1"
                (TDatetime (Datetime.make Sample.monday 8 0 0 0))
                (Some "missed") None None None;
              DoseLog.mk "u1" "m2"
                (TDatetime (Datetime.make Sample.monday 20 0 0 0))
                (Some "taken")
                (Some (Datetime.make Sample.monday 20 1 0 0)) None
                (Some (Datetime.make Sample.monday 20 1 0 0))].

(** [c * n] *)
Fixpoint repeat_char (c : ascii) (n : nat) : string :=
  match n with
  | O => EmptyString
  | S n' => String c (repeat_char c n')
  end.

(** A well-formed entry and one whose hour has 4301 digits. *)
Definition db_long_literal : Database :=
  mkDatabase [Sample.med "m1" "Aspirin" "100mg"
                ["08:00"; (repeat_char "9" 4301 ++ ":00")%string]] [].

End Scenario.

(** Whether a stored event counts for user [u], day [d] and status [s] in
    the compliance tally (1) or not (0). *)
Definition hits (fromisoformat_date : string -> option Z) (u : string)
           (d : Z) (s : string) (lg : DoseLog.t) : Z :=
  if decide (DoseLog.user_id lg = u
             /\ log_day fromisoformat_date lg = Some d
             /\ tallied_status lg = s) then 1 else 0.

(** * Properties *)

(** ** Python built-ins *)

Example split_ex1 : Py.split ":" "08:30" = ["08"; "30"].
Proof. reflexivity. Qed.
Example split_ex2 : Py.split ":" "abc" = ["abc"].
Proof. reflexivity. Qed.
Example split_ex3 : Py.split ":" "1:2:3" = ["1"; "2"; "3"].
Proof. reflexivity. Qed.
Example split_ex4 : Py.split ":" ":" = [EmptyString; EmptyString].
Proof. reflexivity. Qed.
Example int_ex1 : Py.int " 25 " = Some 25.
Proof. reflexivity. Qed.
Example int_ex2 : Py.int "-1_0" = Some (-10).
Proof. reflexivity. Qed.
Example int_ex3 : Py.int "abc" = None.
Proof. reflexivity. Qed.
Example int_ex4 : Py.int EmptyString = None.
Proof. reflexivity. Qed.
Example int_ex5 : Py.int "1__0" = None.
Proof. reflexivity. Qed.
Example str_ex1 : Py.str 45 = "45".
Proof. reflexivity. Qed.
Example str_ex2 : Py.str 0 = "0".
Proof. reflexivity. Qed.
Example strip_ex1 : Py.strip "  Remind ME " = "Remind ME".
Proof. reflexivity. Qed.
Example lower_ex1 : Py.lower "Remind ME in 15" = "remind me in 15".
Proof. reflexivity. Qed.
Example contains_ex1 : Py.contains "5" "in 15 minutes" = true.
Proof. reflexivity. Qed.
Example sort_ex1 : Py.sort fst [(3, "a"); (1, "b"); (3, "c"); (1, "d")]
                   = [(1, "b"); (1, "d"); (3, "a"); (3, "c")].
Proof. reflexivity. Qed.


Lemma contains_here sub s : String.prefix sub s = true -> Py.contains sub s = true.
Proof. intros H. destruct s; simpl in *; rewrite H; reflexivity. Qed.

Lemma contains_cons sub c s :
  Py.contains sub s = true -> Py.contains sub (String c s) = true.
Proof. intros H. simpl. rewrite H. apply orb_true_r. Qed.

(** A text that contains [c :: sub] contains [sub]. *)
Lemma contains_tail c sub s :
  Py.contains (String c sub) s = true -> Py.contains sub s = true.
Proof.
  induction s as [|a s IH]; simpl.
  - discriminate.
  - intros H. apply orb_true_iff in H as [H|H].
    + destruct (ascii_dec c a) as [->|Hne]; [|discriminate].
      apply contains_cons, contains_here, H.
    + apply contains_cons, IH, H.
Qed.

Lemma weekday_range d : 0 <= Datetime.weekday d < 7.
Proof. unfold Datetime.weekday. apply Z.mod_pos_bound. lia. Qed.

Lemma mem_every_day w : 0 <= w < 7 -> Py.mem w [0; 1; 2; 3; 4; 5; 6] = true.
Proof.
  intros H.
  assert (w = 0 \/ w = 1 \/ w = 2 \/ w = 3 \/ w = 4 \/ w = 5 \/ w = 6)
    as Hc by lia.
  repeat destruct Hc as [->|Hc]; try subst w; reflexivity.
Qed.




(** ** The store *)

Lemma matches_fresh q : Store.matches q (Store.fresh q) = true.
Proof.
  unfold Store.matches, Store.fresh; simpl.
  rewrite !bool_decide_eq_true_2; reflexivity.
Qed.

Lemma matches_keeps_key set q lg :
  keeps_key set -> Store.matches q (set lg) = Store.matches q lg.
Proof.
  intros Hk. destruct (Hk lg) as (H1 & H2 & H3).
  unfold Store.matches. rewrite H1, H2, H3. reflexivity.
Qed.

Lemma matches_inj q q' lg :
  Store.matches q lg = true -> Store.matches q' lg = true -> q' = q.
Proof.
  unfold Store.matches. intros H H'.
  repeat (apply andb_true_iff in H as [H ?]).
  repeat (apply andb_true_iff in H' as [H' ?]).
  repeat match goal with
         | X : bool_decide _ = true |- _ => apply bool_decide_eq_true in X
         end.
  destruct q, q'; simpl in *. congruence.
Qed.

Lemma set_taken_keeps_key t u : keeps_key (set_taken t u).
Proof. intros lg. repeat split. Qed.

Lemma set_snoozed_keeps_key t u : keeps_key (set_snoozed t u).
Proof. intros lg. repeat split. Qed.

(** What [find_one] sees after an upsert. *)
Lemma find_upsert set q q' c :
  keeps_key set ->
  List.find (Store.matches q') (Store.upsert q set c)
  = if decide (q' = q)
    then Some (set (default (Store.fresh q) (List.find (Store.matches q) c)))
    else List.find (Store.matches q') c.
Proof.
  intros Hk. induction c as [|lg c IH]; simpl.
  - rewrite (matches_keeps_key set q' _ Hk).
    destruct (decide (q' = q)) as [->|Hne].
    + rewrite matches_fresh. reflexivity.
    + destruct (Store.matches q' (Store.fresh q)) eqn:E; [|reflexivity].
      exfalso. apply Hne.
      exact (matches_inj q q' _ (matches_fresh q) E).
  - destruct (Store.matches q lg) eqn:Eq; simpl.
    + rewrite (matches_keeps_key set q' _ Hk).
      destruct (decide (q' = q)) as [->|Hne].
      * rewrite Eq. reflexivity.
      * destruct (Store.matches q' lg) eqn:E; [|reflexivity].
        exfalso. apply Hne. exact (matches_inj q q' lg Eq E).
    + destruct (Store.matches q' lg) eqn:E.
      * destruct (decide (q' = q)) as [->|Hne]; [congruence|reflexivity].
      * exact IH.
Qed.

Lemma find_one_update_one db set q q' :
  keeps_key set ->
  Store.find_one (Store.update_one db q set) q'
  = if decide (q' = q)
    then Some (set (default (Store.fresh q) (Store.find_one db q)))
    else Store.find_one db q'.
Proof. intros Hk. unfold Store.find_one, Store.update_one; simpl. apply find_upsert, Hk. Qed.

(** A second upsert under the same key rewrites the document of the first. *)
Lemma upsert_upsert set1 set2 q c :
  keeps_key set1 ->
  Store.upsert q set2 (Store.upsert q set1 c)
  = Store.upsert q (fun lg => set2 (set1 lg)) c.
Proof.
  intros Hk. induction c as [|lg c IH]; simpl.
  - rewrite (matches_keeps_key set1 q _ Hk), matches_fresh. reflexivity.
  - destruct (Store.matches q lg) eqn:E; simpl.
    + rewrite (matches_keeps_key set1 q _ Hk), E. reflexivity.
    + rewrite E, IH. reflexivity.
Qed.

Lemma upsert_ext set1 set2 q c :
  (forall lg, set1 lg = set2 lg) -> Store.upsert q set1 c = Store.upsert q set2 c.
Proof.
  intros H. induction c as [|lg c IH]; simpl.
  - rewrite H. reflexivity.
  - destruct (Store.matches q lg); [rewrite H|rewrite IH]; reflexivity.
Qed.

Lemma upsert_length_found set q c lg :
  List.find (Store.matches q) c = Some lg ->
  length (Store.upsert q set c) = length c.
Proof.
  revert lg. induction c as [|x c IH]; simpl; intros lg H; [discriminate|].
  destruct (Store.matches q x); simpl; [reflexivity|].
  f_equal. eapply IH, H.
Qed.


(** ** [list.sort] *)

Section SortFacts.
Context {A : Type} (key : A -> Z).

Lemma insert_elem_of x y (l : list A) :
  y ∈ Py.insert key x l <-> y = x \/ y ∈ l.
Proof.
  induction l as [|z l IH]; simpl.
  - rewrite list_elem_of_singleton, elem_of_nil. tauto.
  - destruct (key x <=? key z).
    + rewrite elem_of_cons. reflexivity.
    + rewrite !elem_of_cons, IH. tauto.
Qed.

Lemma sort_elem_of y (l : list A) : y ∈ Py.sort key l <-> y ∈ l.
Proof.
  induction l as [|x l IH]; simpl; [reflexivity|].
  rewrite insert_elem_of, IH, elem_of_cons. reflexivity.
Qed.

Lemma sort_Forall (P : A -> Prop) (l : list A) :
  Forall P l -> Forall P (Py.sort key l).
Proof.
  rewrite !Forall_forall. intros H x Hx. apply H, sort_elem_of, Hx.
Qed.

Lemma insert_length x (l : list A) :
  length (Py.insert key x l) = S (length l).
Proof.
  induction l as [|z l IH]; simpl; [reflexivity|].
  destruct (key x <=? key z); simpl; congruence.
Qed.

Lemma sort_length (l : list A) : length (Py.sort key l) = length l.
Proof.
  induction l as [|x l IH]; simpl; [reflexivity|].
  rewrite insert_length, IH. reflexivity.
Qed.

(** The head of the sorted list is the first entry of least key. *)
Lemma sort_head (l : list A) : head (Py.sort key l) = first_min key l.
Proof.
  induction l as [|x l IH]; simpl; [reflexivity|].
  rewrite <- IH. destruct (Py.sort key l) as [|y s]; simpl; [reflexivity|].
  destruct (key x <=? key y); reflexivity.
Qed.

(** [first_min] picks an entry no other entry beats, and that no earlier
    entry ties with. *)
Lemma first_min_spec (l : list A) m :
  first_min key l = Some m ->
  exists l1 l2, l = l1 ++ m :: l2
                /\ Forall (fun x => key m < key x) l1
                /\ Forall (fun x => key m <= key x) l2.
Proof.
  revert m. induction l as [|x l IH]; simpl; intros m H; [discriminate|].
  destruct (first_min key l) as [y|] eqn:E.
  - destruct (IH y eq_refl) as (l1 & l2 & -> & H1 & H2).
    destruct (Z.leb_spec (key x) (key y)); inversion H; subst.
    + exists [], (l1 ++ y :: l2). repeat split; [constructor|].
      apply Forall_app; split.
      * eapply Forall_impl; [exact H1|]. simpl. intros. lia.
      * constructor; [lia|]. eapply Forall_impl; [exact H2|].
        simpl. intros. lia.
    + exists (x :: l1), l2. repeat split; [|exact H2].
      constructor; [lia|exact H1].
  - inversion H; subst. destruct l; [|simpl in E; destruct (first_min key l);
      try destruct (_ <=? _); discriminate].
    exists [], []. repeat split; constructor.
Qed.

Lemma first_min_is_Some (l : list A) : l <> [] -> is_Some (first_min key l).
Proof.
  destruct l as [|x l]; [congruence|]. intros _. simpl.
  destruct (first_min key l); [destruct (_ <=? _)|]; eauto.
Qed.
End SortFacts.

(** Sorting commutes with a map that keeps the keys. *)
Lemma sort_fmap {A} (key : A -> Z) (f : A -> A) (l : list A) :
  (forall x, key (f x) = key x) ->
  Py.sort key (f <$> l) = f <$> Py.sort key l.
Proof.
  intros Hf. induction l as [|x l IH]; [reflexivity|].
  rewrite fmap_cons. cbn [Py.sort]. rewrite IH. clear IH.
  induction (Py.sort key l) as [|y s IHs]; [reflexivity|].
  rewrite fmap_cons. cbn [Py.insert]. rewrite !Hf.
  destruct (key x <=? key y); [reflexivity|].
  rewrite IHs, fmap_cons. reflexivity.
Qed.

(** The sort is a stable sort: sorted, a permutation, equal keys in order. *)
Section SortIsStable.
Context {A : Type} (key : A -> Z).

Lemma insert_Permutation x (l : list A) : Py.insert key x l ≡ₚ x :: l.
Proof.
  induction l as [|y l IH]; simpl; [reflexivity|].
  destruct (key x <=? key y); [reflexivity|].
  rewrite IH. apply Permutation_swap.
Qed.

Lemma sort_Permutation (l : list A) : Py.sort key l ≡ₚ l.
Proof.
  induction l as [|x l IH]; simpl; [reflexivity|].
  rewrite insert_Permutation, IH. reflexivity.
Qed.

Lemma insert_Sorted x (l : list A) :
  Sorted (fun a b => key a <= key b) l ->
  Sorted (fun a b => key a <= key b) (Py.insert key x l).
Proof.
  induction 1 as [|y l Hs IH Hhd]; simpl.
  - repeat constructor.
  - destruct (Z.leb_spec (key x) (key y)).
    + constructor; [constructor; assumption|constructor; assumption].
    + constructor; [exact IH|].
      destruct l as [|z l]; simpl.
      * constructor. lia.
      * destruct (key x <=? key z); constructor; [lia|].
        inversion Hhd; assumption.
Qed.

Lemma sort_Sorted (l : list A) :
  Sorted (fun a b => key a <= key b) (Py.sort key l).
Proof.
  induction l as [|x l IH]; simpl; [constructor|].
  apply insert_Sorted, IH.
Qed.

Lemma insert_stable k x (l : list A) :
  filter (fun a => key a = k) (Py.insert key x l)
  = filter (fun a => key a = k) (x :: l).
Proof.
  induction l as [|y l IH]; simpl; [reflexivity|].
  destruct (Z.leb_spec (key x) (key y)); [reflexivity|].
  rewrite filter_cons, IH, !filter_cons.
  destruct (decide (key y = k)), (decide (key x = k)); try reflexivity.
  lia.
Qed.

(** Entries of equal key keep their relative order. *)
Lemma sort_stable k (l : list A) :
  filter (fun a => key a = k) (Py.sort key l)
  = filter (fun a => key a = k) l.
Proof.
  induction l as [|x l IH]; simpl; [reflexivity|].
  rewrite insert_stable, !filter_cons, IH. reflexivity.
Qed.
End SortIsStable.

(** ** [get_todays_doses] *)

Lemma filter_fmap_same {A} (P : A -> Prop) `{!forall x, Decision (P x)}
      (f : A -> A) (l : list A) :
  (forall x, P (f x) <-> P x) -> filter P (f <$> l) = f <$> filter P l.
Proof.
  intros Hf. induction l as [|x l IH]; [reflexivity|].
  rewrite fmap_cons, !filter_cons, IH.
  destruct (decide (P (f x))) as [Hfx|Hfx], (decide (P x)) as [Hx|Hx];
    try reflexivity; exfalso; apply Hfx || apply Hx; apply Hf; assumption.
Qed.

(** Every item [times_loop] adds carries the status resolved for its key. *)
Lemma times_loop_resolved db user_id now m times due due' :
  Forall (fun d => Dose.status d = resolved_status db (dose_key user_id d)) due ->
  times_loop db user_id now m times due = Ok due' ->
  Forall (fun d => Dose.status d = resolved_status db (dose_key user_id d)) due'.
Proof.
  revert due. induction times as [|t times IH]; simpl; intros due Hd H.
  - inversion H; subst. exact Hd.
  - destruct (parse_time t) as [[hour minute]|]; [|eapply IH; eassumption].
    destruct (Datetime.replace now hour minute) as [sched_dt|e];
      [|discriminate].
    simpl in H. eapply IH; [|exact H].
    apply Forall_app; split; [exact Hd|]. constructor; [|constructor].
    reflexivity.
Qed.

Lemma meds_loop_resolved db user_id now weekday meds due due' :
  Forall (fun d => Dose.status d = resolved_status db (dose_key user_id d)) due ->
  meds_loop db user_id now weekday meds due = Ok due' ->
  Forall (fun d => Dose.status d = resolved_status db (dose_key user_id d)) due'.
Proof.
  revert due. induction meds as [|m meds IH]; simpl; intros due Hd H.
  - inversion H; subst. exact Hd.
  - destruct (negb _); [eapply IH; eassumption|].
    destruct (times_loop db user_id now m _ due) as [due1|e] eqn:E;
      [|discriminate].
    simpl in H. eapply IH; [|exact H].
    eapply times_loop_resolved; eassumption.
Qed.

Lemma get_todays_doses_resolved db user_id now doses :
  get_todays_doses db user_id now = Ok doses ->
  Forall (fun d => Dose.status d = resolved_status db (dose_key user_id d)) doses.
Proof.
  unfold get_todays_doses. intros H.
  destruct (meds_loop db user_id now _ _ []) as [due|e] eqn:E; [|discriminate].
  simpl in H. inversion H; subst. clear H.
  apply meds_loop_resolved in E; [|constructor].
  apply Forall_forall. intros d Hd.
  apply list_elem_of_filter in Hd as [_ Hd]. apply sort_elem_of in Hd.
  rewrite Forall_forall in E. apply E, Hd.
Qed.

(** The status resolved after the event under [q] was set to "snoozed". *)
Lemma resolved_status_snoozed db q until u k :
  resolved_status (Store.update_one db q (set_snoozed until u)) k
  = if decide (k = q) then Some "snoozed" else resolved_status db k.
Proof.
  unfold resolved_status.
  rewrite find_one_update_one by apply set_snoozed_keeps_key.
  destruct (decide (k = q)); reflexivity.
Qed.

Section AfterSnooze.
Variables (db : Database) (user_id : string) (now : Z).
Variables (q : Store.key) (until u : Z).

Let db' := Store.update_one db q (set_snoozed until u).
Let f := reports_snoozed user_id q.

Lemma times_loop_snoozed m times (due : list Dose.t) :
  times_loop db' user_id now m times (f <$> due)
  = fmap (M:=list) f <$> times_loop db user_id now m times due.
Proof.
  revert due. induction times as [|t times IH]; simpl; intros due.
  - reflexivity.
  - destruct (parse_time t) as [[hour minute]|]; [|apply IH].
    destruct (Datetime.replace now hour minute) as [sched_dt|e];
      [|reflexivity].
    simpl. rewrite <- IH. f_equal. rewrite fmap_app. f_equal. simpl.
    f_equal. unfold f, reports_snoozed, dose_key; simpl.
    fold (resolved_status db' (Store.mkKey user_id (Medication._id m) sched_dt)).
    subst db'. rewrite resolved_status_snoozed.
    destruct (decide (_ = q)); reflexivity.
Qed.

Lemma meds_loop_snoozed weekday meds (due : list Dose.t) :
  meds_loop db' user_id now weekday meds (f <$> due)
  = fmap (M:=list) f <$> meds_loop db user_id now weekday meds due.
Proof.
  revert due. induction meds as [|m meds IH]; simpl; intros due.
  - reflexivity.
  - destruct (negb _); [apply IH|].
    rewrite times_loop_snoozed.
    destruct (times_loop db user_id now m _ due) as [due1|e];
      [|reflexivity].
    simpl. apply IH.
Qed.

Lemma get_todays_doses_snoozed :
  get_todays_doses db' user_id now
  = fmap (M:=list) f <$> get_todays_doses db user_id now.
Proof.
  unfold get_todays_doses.
  change (Store.find_medications db' user_id)
    with (Store.find_medications db user_id).
  change (@nil Dose.t) with (f <$> @nil Dose.t) at 1.
  rewrite meds_loop_snoozed.
  destruct (meds_loop db user_id now _ _ []) as [due|e]; [|reflexivity].
  simpl. f_equal.
  assert (forall x, Dose.scheduled_at (f x) = Dose.scheduled_at x) as Hs.
  { intros x. unfold f, reports_snoozed. destruct (decide _); reflexivity. }
  rewrite sort_fmap by exact Hs.
  apply filter_fmap_same. intros x. rewrite Hs. reflexivity.
Qed.
End AfterSnooze.

(** ** [caregiver_compliance] *)

(** The loop appends one entry per day from [d] to [last]. *)
Lemma calendar_loop_eq day_status d last calendar :
  calendar_loop day_status d last calendar
  = calendar
    ++ ((fun x => CalendarEntry.mk x
                    (symbol_of (default empty_tally (day_status !! x))))
          <$> seqZ d (last + 1 - d)).
Proof.
  funelim (calendar_loop day_status d last calendar).
  - match goal with IH : calendar_loop _ _ _ _ = _ ++ _ |- _ => rewrite IH end.
    rewrite (seqZ_cons d) by lia. rewrite fmap_cons, <- app_assoc. simpl.
    do 4 f_equal. lia.
  - rewrite seqZ_nil by lia. rewrite app_nil_r. reflexivity.
Qed.

Lemma date_sub_days now n :
  Datetime.date (Datetime.sub_days now n) = Datetime.date now - n.
Proof.
  unfold Datetime.date, Datetime.sub_days.
  replace (now - n * Datetime.us_per_day)
    with (now + (- n) * Datetime.us_per_day) by lia.
  rewrite Z.div_add by (vm_compute; discriminate). lia.
Qed.

Lemma symbol_of_day_rule st :
  symbol_of st = day_rule (get0 st "missed") (get0 st "taken") (get0 st "pending").
Proof.
  unfold symbol_of, day_rule.
  destruct (Z.ltb_spec 0 (get0 st "missed")).
  - rewrite decide_True by lia. reflexivity.
  - rewrite decide_False by lia.
    destruct (Z.ltb_spec 0 (get0 st "taken")),
             (Z.eqb_spec (get0 st "pending") 0); simpl;
      (rewrite decide_True by lia) || (rewrite decide_False by lia);
      reflexivity.
Qed.

Lemma symbol_of_range st :
  symbol_of st = "taken" \/ symbol_of st = "missed" \/ symbol_of st = "pending".
Proof.
  unfold symbol_of. destruct (0 <? _); [tauto|]. destruct (_ && _); tauto.
Qed.

Section ComplianceFacts.
Variable fromisoformat_date : string -> option Z.
Local Abbreviation log_day := (log_day fromisoformat_date).
Local Abbreviation tally_step := (tally_step fromisoformat_date).
Local Abbreviation count_events := (count_events fromisoformat_date).

Lemma tally_of_empty d s : tally_of ∅ d s = 0.
Proof.
  unfold tally_of. rewrite lookup_empty. simpl. unfold get0, empty_tally.
  destruct (decide (s = "taken")) as [->|]; [reflexivity|].
  rewrite lookup_insert_ne by congruence.
  destruct (decide (s = "missed")) as [->|]; [reflexivity|].
  rewrite lookup_insert_ne by congruence.
  destruct (decide (s = "pending")) as [->|]; [reflexivity|].
  rewrite lookup_insert_ne by congruence. reflexivity.
Qed.

Lemma tally_of_default d s (day_status : gmap Z (gmap string Z)) :
  day_status !! d = None -> tally_of day_status d s = 0.
Proof.
  intros H. rewrite <- (tally_of_empty d s). unfold tally_of.
  rewrite H, lookup_empty. reflexivity.
Qed.

Lemma tally_step_tally day_status lg d s :
  tally_of (tally_step day_status lg) d s
  = tally_of day_status d s
    + (if decide (log_day lg = Some d /\ tallied_status lg = s) then 1 else 0).
Proof.
  unfold tally_step, tallied_status.
  destruct (log_day lg) as [day|] eqn:E.
  2:{ rewrite decide_False by (intros [? _]; discriminate). lia. }
  unfold tally_of. cbn zeta.
  destruct (decide (day = d)) as [->|Hd].
  - rewrite lookup_insert_eq. simpl. unfold get0 at 1.
    destruct (decide (default "pending" (DoseLog.status lg) = s)) as [->|Hs].
    + rewrite lookup_insert_eq. simpl. rewrite decide_True by tauto.
      reflexivity.
    + rewrite lookup_insert_ne by exact Hs.
      rewrite decide_False by tauto. unfold get0. lia.
  - rewrite lookup_insert_ne by exact Hd.
    rewrite decide_False by (intros [? _]; congruence). lia.
Qed.

Lemma fold_tally logs day_status d s :
  tally_of (fold_left tally_step logs day_status) d s
  = tally_of day_status d s + count_events logs d s.
Proof.
  revert day_status. induction logs as [|lg logs IH]; intros day_status.
  - unfold count_events. simpl. lia.
  - simpl fold_left. rewrite IH, tally_step_tally.
    unfold count_events. rewrite filter_cons.
    destruct (decide (log_day lg = Some d /\ _)); simpl length; lia.
Qed.

(** The tally of a day holds, per status, the number of its events. *)
Lemma tally_counts logs d s :
  tally_of (fold_left tally_step logs ∅) d s = count_events logs d s.
Proof. rewrite fold_tally, tally_of_empty. lia. Qed.

Lemma caregiver_compliance_eq db user_id now :
  caregiver_compliance fromisoformat_date db user_id now
  = (fun d =>
       let logs := Store.find_doselogs db user_id in
       CalendarEntry.mk d (day_rule (count_events logs d "missed")
                                    (count_events logs d "taken")
                                    (count_events logs d "pending")))
      <$> seqZ (Datetime.date now - 30) 31.
Proof.
  unfold caregiver_compliance. rewrite calendar_loop_eq, date_sub_days.
  simpl app. replace (Datetime.date now + 1 - (Datetime.date now - 30))
    with 31 by lia.
  apply list_fmap_ext. intros _ d _. cbn zeta. f_equal.
  rewrite symbol_of_day_rule. rewrite <- !tally_counts. reflexivity.
Qed.
End ComplianceFacts.

(** ** [voice_command] *)

(** The query intent names the first pending or snoozed item of least
    [minutes_from_now], and writes nothing. *)
Lemma voice_query_names_first_min cmd now db doses :
  let text_lower := Py.strip (Py.lower (VoiceCommandIn.text cmd)) in
  let pending := filter (fun d => is_pending d = true) doses in
  is_query_intent text_lower = true ->
  get_todays_doses db (VoiceCommandIn.user_id cmd) now = Ok doses ->
  pending <> [] ->
  exists top,
    first_min (minutes_from_now now) pending = Some top
    /\ voice_command cmd now db = Ok (take_response top, db).
Proof.
  intros text_lower pending Hq Hd Hp. unfold voice_command.
  fold text_lower. rewrite Hq, Hd. simpl. fold pending.
  destruct (first_min_is_Some (minutes_from_now now) pending Hp) as [top Ht].
  exists top. split; [exact Ht|].
  rewrite <- sort_head in Ht.
  destruct pending as [|p ps]; [congruence|].
  destruct (Py.sort _ (p :: ps)) as [|x xs]; [discriminate|].
  simpl in Ht. congruence.
Qed.

(** The reminder intent snoozes the head of the pending/snoozed list, which
    is in the order of the today list. *)
Lemma voice_reminder_snoozes_head cmd now db doses top rest :
  let text_lower := Py.strip (Py.lower (VoiceCommandIn.text cmd)) in
  let minutes := extract_minutes text_lower in
  is_query_intent text_lower = false ->
  is_reminder_intent text_lower = true ->
  get_todays_doses db (VoiceCommandIn.user_id cmd) now = Ok doses ->
  filter (fun d => is_pending d = true) doses = top :: rest ->
  voice_command cmd now db
  = Ok (remind_response minutes,
        Store.update_one db (dose_key (VoiceCommandIn.user_id cmd) top)
          (set_snoozed (Datetime.add_minutes now minutes) now)).
Proof.
  intros text_lower minutes Hq Hr Hd Hp. unfold voice_command.
  fold text_lower. rewrite Hq, Hr, Hd. simpl. rewrite Hp. reflexivity.
Qed.

(** The rung 45 is never reached: a text that contains "45" contains "5". *)
Lemma extract_minutes_never_45 text_lower : extract_minutes text_lower <> 45.
Proof.
  unfold extract_minutes. simpl ladder_loop.
  change (Py.str 5) with "5". change (Py.str 45) with "45".
  destruct (Py.contains "5" text_lower) eqn:E5; [discriminate|].
  repeat match goal with
         | |- context [if ?b then _ else _] =>
             lazymatch b with
             | Py.contains "45" _ => fail
             | _ => destruct b; [discriminate|]
             end
         end.
  destruct (Py.contains "45" text_lower) eqn:E45.
  - apply contains_tail in E45. congruence.
  - repeat match goal with
           | |- context [if ?b then _ else _] => destruct b
           end; discriminate.
Qed.

(** * The claims *)

(** C1. The specification says every malformed time entry, the out-of-range
    ["25:99"] included, is skipped without raising. [get_todays_doses] does
    skip an entry that does not parse as two integers, but an entry that
    parses to an out-of-range pair reaches [replace], outside the [try]:
    for a medication scheduled every day whose times list is ["25:99"],
    [get_todays_doses] raises [ValueError], at any instant. *)
Theorem get_todays_doses_25_99_raises now user_id _id name dosage img :
  get_todays_doses
    (mkDatabase
       [Medication.mk _id user_id name dosage img
          (MedicationSchedule.mk [0; 1; 2; 3; 4; 5; 6] ["25:99"])] [])
    user_id now = Raise ValueError.
Proof.
  unfold get_todays_doses, Store.find_medications. simpl medication.
  rewrite filter_cons_True by reflexivity.
  rewrite filter_nil.
  cbn [meds_loop Medication.schedule MedicationSchedule.days_of_week
       MedicationSchedule.times].
  rewrite mem_every_day by apply weekday_range.
  reflexivity.
Qed.

(** An entry that does not parse is skipped: the loop goes on with the
    next entry and the same list. *)
Lemma times_loop_skips_unparsed db user_id now m t times due :
  parse_time t = None ->
  times_loop db user_id now m (t :: times) due
  = times_loop db user_id now m times due.
Proof. intros H. simpl. rewrite H. reflexivity. Qed.

(** An entry that parses to a pair outside 0..23 x 0..59 makes the loop
    raise. *)
Lemma times_loop_raises_out_of_range db user_id now m t times due hour minute :
  parse_time t = Some (hour, minute) ->
  ~ (0 <= hour <= 23 /\ 0 <= minute <= 59) ->
  exists e, times_loop db user_id now m (t :: times) due = Raise e.
Proof.
  intros H Hr. simpl. rewrite H. unfold Datetime.replace.
  destruct (negb (Datetime.c_int hour && Datetime.c_int minute));
    [eexists; reflexivity|].
  destruct (Z.leb_spec 0 hour), (Z.leb_spec hour 23); simpl;
    try (eexists; reflexivity).
  destruct (Z.leb_spec 0 minute), (Z.leb_spec minute 59); simpl;
    try (eexists; reflexivity).
  exfalso. apply Hr. lia.
Qed.

Example parse_time_abc : parse_time "abc" = None.
Proof. reflexivity. Qed.

Example parse_time_25_99 : parse_time "25:99" = Some (25, 99).
Proof. reflexivity. Qed.

Example get_todays_doses_malformed :
  get_todays_doses Sample.db_malformed "u1"
    (Datetime.make Sample.monday 7 0 0 0) = Raise ValueError.
Proof. vm_compute. reflexivity. Qed.

(** C2. The specification says the reminder intent snoozes the entry nearest
    to [now], as the query intent selects it. On a Monday at 19:55, with
    doses due at 08:00 and 20:00 and nothing logged, the query intent names
    the 20:00 dose (5 minutes away) while the reminder intent snoozes the
    08:00 dose (715 minutes away): it takes the head of the list in
    chronological order, without the sort by distance. *)
Theorem reminder_snoozes_first_not_nearest :
  let now := Datetime.make Sample.monday 19 55 0 0 in
  let db := Sample.db_morning_evening in
  let a := Sample.dose "m1" "Aspirin" "100mg" 8 0 "pending" in
  let b := Sample.dose "m2" "Metformin" "500mg" 20 0 "pending" in
  get_todays_doses db "u1" now = Ok [a; b]
  /\ minutes_from_now now a = 715
  /\ minutes_from_now now b = 5
  /\ voice_command (VoiceCommandIn.mk "What medicine do I take now?" "u1")
       now db
     = Ok (take_response b, db)
  /\ voice_command (VoiceCommandIn.mk "Remind me in 10 minutes" "u1") now db
     = Ok (remind_response 10,
           mkDatabase (medication db)
             [DoseLog.mk "u1" "m1"
                (TDatetime (Datetime.make Sample.monday 8 0 0 0))
                (Some "snoozed") None
                (Some (Datetime.make Sample.monday 20 5 0 0))
                (Some now)]).
Proof. vm_compute. repeat split; reflexivity. Qed.

(** C3, as the specification states it, fails: on an empty store, taking
    the 08:00 dose at 08:01 and again at 08:05 leaves an event whose
    [taken_at] is 08:05, while one call leaves 08:01: the two final events
    differ in more than [updated_at]. *)
Lemma mark_taken_twice_moves_taken_at :
  let p := Sample.take_m1_0800 in
  let t1 := Datetime.make Sample.monday 8 1 0 0 in
  let t2 := Datetime.make Sample.monday 8 5 0 0 in
  let once := mark_taken p t1 t1 (mkDatabase [] []) in
  let twice := mark_taken p t2 t2 once in
  exists ev1 ev2,
    Store.find_one once (take_key p) = Some ev1
    /\ Store.find_one twice (take_key p) = Some ev2
    /\ DoseLog.taken_at ev1 = Some t1
    /\ DoseLog.taken_at ev2 = Some t2
    /\ ~ same_but_updated_at ev1 ev2.
Proof.
  eexists _, _. split; [vm_compute; reflexivity|].
  split; [vm_compute; reflexivity|].
  split; [reflexivity|]. split; [reflexivity|].
  intros (_ & _ & _ & _ & H & _). vm_compute in H. discriminate.
Qed.

(** C3, amended. Calling [mark_taken] twice with the same key leaves one
    event under that key, with status "taken", equal to the event one call
    leaves except for [taken_at] and [updated_at], which hold the clock
    readings of the second call; no second document is created, and the
    store is the one a single call at the later readings gives. *)
Theorem mark_taken_twice db p t1 u1 t2 u2 :
  let once := mark_taken p t1 u1 db in
  let twice := mark_taken p t2 u2 once in
  exists ev1 ev2,
    Store.find_one once (take_key p) = Some ev1
    /\ Store.find_one twice (take_key p) = Some ev2
    /\ DoseLog.status ev1 = Some "taken"
    /\ DoseLog.status ev2 = Some "taken"
    /\ same_but_timestamps ev1 ev2
    /\ DoseLog.taken_at ev2 = Some t2
    /\ DoseLog.updated_at ev2 = Some u2
    /\ length (doselog twice) = length (doselog once)
    /\ twice = mark_taken p t2 u2 db.
Proof.
  intros once twice. subst once twice. unfold mark_taken. fold (take_key p).
  set (q := take_key p).
  pose proof (set_taken_keeps_key t1 u1) as K1.
  pose proof (set_taken_keeps_key t2 u2) as K2.
  rewrite !find_one_update_one by assumption.
  destruct (decide (q = q)) as [_|]; [|congruence].
  eexists _, _. split; [reflexivity|]. split; [reflexivity|].
  simpl. repeat split.
  - unfold Store.update_one; simpl.
    eapply upsert_length_found.
    rewrite find_upsert by assumption.
    destruct (decide (q = q)); [reflexivity|congruence].
  - unfold Store.update_one; simpl. f_equal.
    rewrite upsert_upsert by assumption.
    apply upsert_ext. intros lg. reflexivity.
Qed.

(** C4. The specification says the query intent names the entry nearest to
    [now]. [minutes_from_now] floors the signed difference before taking
    the absolute value, so a dose overdue by one second counts as 1 minute
    away and a dose due in 59 seconds as 0: on a Monday at 09:00:01, with
    doses due at 09:00 and 09:01 and nothing logged, the response names the
    09:01 dose, 59 seconds away, not the 09:00 dose, 1 second away (and
    first in chronological order). *)
Theorem query_names_farther_dose :
  let now := Datetime.make Sample.monday 9 0 1 0 in
  let db := Sample.db_adjacent in
  let a := Sample.dose "m1" "Aspirin" "100mg" 9 0 "pending" in
  let b := Sample.dose "m2" "Metformin" "500mg" 9 1 "pending" in
  get_todays_doses db "u1" now = Ok [a; b]
  /\ Z.abs (Dose.scheduled_at a - now) = 1 * Datetime.us_per_second
  /\ Z.abs (Dose.scheduled_at b - now) = 59 * Datetime.us_per_second
  /\ minutes_from_now now a = 1
  /\ minutes_from_now now b = 0
  /\ voice_command (VoiceCommandIn.mk "What medicine do I take now?" "u1")
       now db
     = Ok (take_response b, db).
Proof. vm_compute. repeat split; reflexivity. Qed.

(** The scenario of the specification: a pending dose due in 5 minutes and
    a snoozed dose due in 60 minutes; the response names the former. *)
Example query_five_sixty :
  let now := Datetime.make Sample.monday 9 0 0 0 in
  let db := Sample.db_five_sixty in
  get_todays_doses db "u1" now
  = Ok [Sample.dose "m2" "Metformin" "500mg" 9 5 "pending";
        Sample.dose "m1" "Aspirin" "100mg" 10 0 "snoozed"]
  /\ voice_command (VoiceCommandIn.mk "What medicine do I take now?" "u1")
       now db
     = Ok ("It's medication time. Please take 500mg of Metformin.", db).
Proof. vm_compute. split; reflexivity. Qed.

(** C5. A dose of the today list with no stored event under its key reports
    "pending"; after [snooze] on that key with [minutes = 15], the stored
    event is "snoozed" with [snooze_until] the clock reading of the call
    plus 15 minutes, and the today list is the former one with that entry
    reporting "snoozed". *)
Theorem snooze_round_trip db user_id now doses d t1 t2 :
  let q := dose_key user_id d in
  let payload := SnoozeIn.mk user_id (Dose.medication_id d)
                             (Dose.scheduled_at d) 15 in
  let until := fst (snooze payload t1 t2 db) in
  let db' := snd (snooze payload t1 t2 db) in
  get_todays_doses db user_id now = Ok doses ->
  d ∈ doses ->
  Store.find_one db q = None ->
  Dose.status d = Some "pending"
  /\ until = Datetime.add_minutes t1 15
  /\ Store.find_one db' q
     = Some (DoseLog.mk user_id (Dose.medication_id d)
                        (TDatetime (Dose.scheduled_at d)) (Some "snoozed")
                        None (Some (Datetime.add_minutes t1 15)) (Some t2))
  /\ get_todays_doses db' user_id now
     = Ok (reports_snoozed user_id q <$> doses)
  /\ with_status (Some "snoozed") d ∈ reports_snoozed user_id q <$> doses.
Proof.
  intros q payload until db' Hd Hin Hnone.
  subst until db'. unfold snooze, payload. cbn [fst snd SnoozeIn.user_id
    SnoozeIn.medication_id SnoozeIn.scheduled_at SnoozeIn.minutes].
  fold (dose_key user_id d). fold q.
  split.
  { pose proof (get_todays_doses_resolved _ _ _ _ Hd) as Hr.
    rewrite Forall_forall in Hr. rewrite (Hr d Hin).
    unfold resolved_status. fold q. rewrite Hnone. reflexivity. }
  split; [reflexivity|]. split.
  { rewrite find_one_update_one by apply set_snoozed_keeps_key.
    rewrite decide_True by reflexivity. rewrite Hnone. reflexivity. }
  split.
  { rewrite get_todays_doses_snoozed, Hd. reflexivity. }
  apply list_elem_of_fmap. exists d. split; [|exact Hin].
  unfold reports_snoozed. rewrite decide_True by reflexivity. reflexivity.
Qed.

Lemma snooze_round_trip_witness :
  let db := Sample.db_morning_evening in
  let now := Datetime.make Sample.monday 7 55 0 0 in
  let d := Sample.dose "m1" "Aspirin" "100mg" 8 0 "pending" in
  let e := Sample.dose "m2" "Metformin" "500mg" 20 0 "pending" in
  let payload := SnoozeIn.mk "u1" "m1" (Dose.scheduled_at d) 15 in
  get_todays_doses db "u1" now = Ok [d; e]
  /\ get_todays_doses (snd (snooze payload now now db)) "u1" now
     = Ok (reports_snoozed "u1" (dose_key "u1" d) <$> [d; e]).
Proof.
  intros db now d e payload. split; [vm_compute; reflexivity|].
  apply (snooze_round_trip db "u1" now [d; e] d now now).
  - vm_compute; reflexivity.
  - apply list_elem_of_here.
  - vm_compute; reflexivity.
Defined.

(** C6. For every day [d] of the compliance window, the calendar holds
    the entry of [d] with the status the any-missed-dominates rule gives
    for the counts of the stored events of that day: "missed" when the
    missed count is positive, else "taken" when the taken count is positive
    and the pending count is zero, else "pending"; every entry of day [d]
    has that status, and every entry of the calendar follows the rule. *)
Theorem compliance_day_rule fromisoformat_date db user_id now d :
  let logs := Store.find_doselogs db user_id in
  let count := count_events fromisoformat_date logs in
  let calendar := caregiver_compliance fromisoformat_date db user_id now in
  Datetime.date now - 30 <= d <= Datetime.date now ->
  CalendarEntry.mk d (day_rule (count d "missed") (count d "taken")
                               (count d "pending")) ∈ calendar
  /\ (forall e, e ∈ calendar -> CalendarEntry.date e = d ->
                CalendarEntry.status e
                = day_rule (count d "missed") (count d "taken")
                           (count d "pending"))
  /\ Forall (fun e =>
               CalendarEntry.status e
               = day_rule (count (CalendarEntry.date e) "missed")
                          (count (CalendarEntry.date e) "taken")
                          (count (CalendarEntry.date e) "pending"))
            calendar.
Proof.
  intros logs count calendar Hd. subst calendar.
  rewrite caregiver_compliance_eq. fold logs. split; [|split].
  - apply list_elem_of_fmap. exists d. split; [reflexivity|].
    apply elem_of_seqZ. lia.
  - intros e He Hde. apply list_elem_of_fmap in He as [d' [-> _]].
    simpl in Hde. subst d'. reflexivity.
  - apply Forall_fmap, Forall_forall. intros d' _. reflexivity.
Qed.

Lemma compliance_day_rule_witness :
  let now := Datetime.make Sample.monday 12 0 0 0 in
  let logs := Store.find_doselogs Scenario.db_missed_taken "u1" in
  let count := count_events (fun _ => None) logs in
  day_rule (count Sample.monday "missed") (count Sample.monday "taken")
           (count Sample.monday "pending") = "missed"
  /\ CalendarEntry.mk Sample.monday
       (day_rule (count Sample.monday "missed") (count Sample.monday "taken")
                 (count Sample.monday "pending"))
     ∈ caregiver_compliance (fun _ => None) Scenario.db_missed_taken "u1" now.
Proof.
  intros now logs count. split; [vm_compute; reflexivity|].
  apply (compliance_day_rule (fun _ => None) Scenario.db_missed_taken "u1"
           now Sample.monday).
  vm_compute. split; intros Hc; discriminate Hc.
Defined.

Example day_rule_missed_dominates : day_rule 1 1 0 = "missed".
Proof. reflexivity. Qed.

Example day_rule_no_events : day_rule 0 0 0 = "pending".
Proof. reflexivity. Qed.

Example day_rule_all_taken : day_rule 0 2 0 = "taken".
Proof. reflexivity. Qed.

Example day_rule_incomplete : day_rule 0 2 1 = "pending".
Proof. reflexivity. Qed.

(** C7. The calendar has exactly 31 entries, one per date from the date of
    [now] minus 30 days to the date of [now], in ascending order, each with
    a status among "taken", "missed" and "pending". *)
Theorem compliance_window fromisoformat_date db user_id now :
  let calendar := caregiver_compliance fromisoformat_date db user_id now in
  length calendar = 31%nat
  /\ CalendarEntry.date <$> calendar = seqZ (Datetime.date now - 30) 31
  /\ Forall (fun e => CalendarEntry.status e = "taken"
                      \/ CalendarEntry.status e = "missed"
                      \/ CalendarEntry.status e = "pending") calendar.
Proof.
  intros calendar. subst calendar. unfold caregiver_compliance.
  rewrite calendar_loop_eq, date_sub_days. simpl app.
  replace (Datetime.date now + 1 - (Datetime.date now - 30)) with 31 by lia.
  split; [|split].
  - rewrite length_fmap, length_seqZ. reflexivity.
  - rewrite <- list_fmap_compose.
    rewrite <- (list_fmap_id (seqZ _ 31)) at 2.
    apply list_fmap_ext. intros _ d _. reflexivity.
  - apply Forall_fmap, Forall_forall. intros d _. apply symbol_of_range.
Qed.

(** C8. A reminder command whose pending/snoozed list is empty gets the
    verbal confirmation and leaves the store as it was. *)
Theorem reminder_nothing_due_no_write cmd now db doses :
  let text_lower := Py.strip (Py.lower (VoiceCommandIn.text cmd)) in
  is_query_intent text_lower = false ->
  is_reminder_intent text_lower = true ->
  get_todays_doses db (VoiceCommandIn.user_id cmd) now = Ok doses ->
  filter (fun d => is_pending d = true) doses = [] ->
  voice_command cmd now db
  = Ok (remind_nothing_due (extract_minutes text_lower), db).
Proof.
  intros text_lower Hq Hr Hd Hp. unfold voice_command. fold text_lower.
  rewrite Hq, Hr, Hd. simpl. rewrite Hp. reflexivity.
Qed.

Lemma reminder_nothing_due_no_write_witness :
  let now := Datetime.make Sample.monday 9 0 0 0 in
  let db := mkDatabase [] [] in
  get_todays_doses db "u1" now = Ok []
  /\ voice_command (VoiceCommandIn.mk "Remind me in 30 minutes" "u1") now db
     = Ok ("Okay, I'll remind you in 30 minutes, but there is nothing due right now.",
           db).
Proof.
  intros now db. split; [reflexivity|].
  apply (reminder_nothing_due_no_write
           (VoiceCommandIn.mk "Remind me in 30 minutes" "u1") now db []);
    reflexivity.
Defined.

(** C9. A text that contains "15" or "45" contains "5", the first rung of
    the ladder, so the minute count extracted from it is 5. *)
Theorem extract_minutes_15_45 text_lower :
  Py.contains "15" text_lower = true \/ Py.contains "45" text_lower = true ->
  extract_minutes text_lower = 5.
Proof.
  intros H.
  assert (Py.contains "5" text_lower = true) as H5
    by (destruct H as [H|H]; exact (contains_tail _ _ _ H)).
  unfold extract_minutes. simpl ladder_loop.
  change (Py.str 5) with "5". rewrite H5. reflexivity.
Qed.

Lemma extract_minutes_15_45_witness :
  Py.contains "15" "remind me in 15 minutes" = true
  /\ extract_minutes "remind me in 15 minutes" = 5.
Proof.
  split; [reflexivity|].
  apply (extract_minutes_15_45 "remind me in 15 minutes").
  left. reflexivity.
Defined.

Example voice_reminder_15 :
  voice_command (VoiceCommandIn.mk "Remind me in 15 minutes" "u1")
    (Datetime.make Sample.monday 9 0 0 0) (mkDatabase [] [])
  = Ok ("Okay, I'll remind you in 5 minutes, but there is nothing due right now.",
        mkDatabase [] []).
Proof. vm_compute. reflexivity. Qed.

Example voice_reminder_45 :
  voice_command (VoiceCommandIn.mk "Remind me in 45 minutes" "u1")
    (Datetime.make Sample.monday 9 0 0 0) (mkDatabase [] [])
  = Ok ("Okay, I'll remind you in 5 minutes, but there is nothing due right now.",
        mkDatabase [] []).
Proof. vm_compute. reflexivity. Qed.

(** A filter whose predicate is decided the same way on the list. *)
Lemma filter_ext_in {A} (P Q : A -> Prop) `{!forall x, Decision (P x)}
      `{!forall x, Decision (Q x)} (l : list A) :
  (forall x, x ∈ l -> (P x <-> Q x)) -> filter P l = filter Q l.
Proof.
  induction l as [|x l IH]; intros Hl; [reflexivity|].
  rewrite !filter_cons.
  rewrite IH by (intros y Hy; apply Hl; right; exact Hy).
  destruct (decide (P x)) as [Hp|Hp], (decide (Q x)) as [Hq|Hq];
    try reflexivity; exfalso;
    (apply Hq || apply Hp); apply (Hl x); try left; assumption.
Qed.

(** C10. A day of the window whose stored events, at least one, all have
    status "snoozed" is classified "pending": its tally holds the events
    under "snoozed" and zero under "taken", "missed" and "pending". *)
Theorem all_snoozed_day_is_pending fromisoformat_date db user_id now d :
  let logs := Store.find_doselogs db user_id in
  let day_status := fold_left (tally_step fromisoformat_date) logs ∅ in
  let calendar := caregiver_compliance fromisoformat_date db user_id now in
  Datetime.date now - 30 <= d <= Datetime.date now ->
  (exists lg, lg ∈ logs /\ log_day fromisoformat_date lg = Some d) ->
  (forall lg, lg ∈ logs -> log_day fromisoformat_date lg = Some d ->
              DoseLog.status lg = Some "snoozed") ->
  CalendarEntry.mk d "pending" ∈ calendar
  /\ (forall e, e ∈ calendar -> CalendarEntry.date e = d ->
                CalendarEntry.status e = "pending")
  /\ 0 < tally_of day_status d "snoozed"
  /\ tally_of day_status d "snoozed"
     = Z.of_nat (length (filter (fun lg => log_day fromisoformat_date lg
                                           = Some d) logs))
  /\ tally_of day_status d "taken" = 0
  /\ tally_of day_status d "missed" = 0
  /\ tally_of day_status d "pending" = 0.
Proof.
  intros logs day_status calendar Hd [lg0 [Hin0 Hday0]] Hall.
  assert (forall s, s <> "snoozed" ->
                    count_events fromisoformat_date logs d s = 0) as Hz.
  { intros s Hs. unfold count_events.
    rewrite (filter_ext_in _ (fun _ => False)); [|].
    - induction logs as [|x l IH]; [reflexivity|].
      rewrite filter_cons_False by tauto.
      clear. induction l as [|y l IH]; [reflexivity|].
      rewrite filter_cons_False by tauto. exact IH.
    - intros x Hx. split; [|tauto]. intros [Hday Hst].
      apply Hs. rewrite <- Hst. unfold tallied_status.
      rewrite (Hall x Hx Hday). reflexivity. }
  assert (count_events fromisoformat_date logs d "snoozed"
          = Z.of_nat (length (filter (fun lg => log_day fromisoformat_date lg
                                                = Some d) logs))) as Hs.
  { unfold count_events. do 2 f_equal. apply filter_ext_in.
    intros x Hx. split; [tauto|]. intros Hday. split; [exact Hday|].
    unfold tallied_status. rewrite (Hall x Hx Hday). reflexivity. }
  assert (forall e, e ∈ calendar -> CalendarEntry.date e = d ->
                    CalendarEntry.status e = "pending") as Hp.
  { subst calendar. rewrite caregiver_compliance_eq.
    intros e He Hde. apply list_elem_of_fmap in He as [d' [-> _]].
    simpl in Hde. subst d'. cbn zeta. cbn [CalendarEntry.status].
    fold logs. rewrite !Hz by discriminate. reflexivity. }
  split; [|split; [exact Hp|]].
  - subst calendar. rewrite caregiver_compliance_eq.
    apply list_elem_of_fmap. exists d. split.
    + cbn zeta. fold logs. rewrite !Hz by discriminate. reflexivity.
    + apply elem_of_seqZ. lia.
  - subst day_status. rewrite !tally_counts. fold logs.
    rewrite (Hz "taken"), (Hz "missed"), (Hz "pending") by discriminate.
    rewrite Hs.
    repeat split; try reflexivity.
    assert (lg0 ∈ filter (fun lg => log_day fromisoformat_date lg = Some d)
                         logs) as Hf
        by (apply list_elem_of_filter; split; assumption).
    destruct (filter _ logs); [inversion Hf|simpl; lia].
Qed.

Lemma all_snoozed_day_is_pending_witness :
  let now := Datetime.make Sample.monday 12 0 0 0 in
  (exists lg, lg ∈ Store.find_doselogs Sample.db_snoozed_day "u1"
              /\ log_day (fun _ => None) lg = Some Sample.monday)
  /\ CalendarEntry.mk Sample.monday "pending"
     ∈ caregiver_compliance (fun _ => None) Sample.db_snoozed_day "u1" now.
Proof.
  intros now.
  assert (exists lg, lg ∈ Store.find_doselogs Sample.db_snoozed_day "u1"
                     /\ log_day (fun _ => None) lg = Some Sample.monday) as He.
  { eexists. split; [apply list_elem_of_here|reflexivity]. }
  split; [exact He|].
  apply (all_snoozed_day_is_pending (fun _ => None) Sample.db_snoozed_day
           "u1" now Sample.monday).
  - vm_compute. split; intros H; discriminate H.
  - exact He.
  - intros lg Hlg _. apply list_elem_of_singleton in Hlg. subst lg.
    reflexivity.
Defined.


(** * Further properties *)

(** ** [get_todays_doses] and [today_meds] *)

Lemma replace_in_range now hour minute :
  0 <= hour <= 23 -> 0 <= minute <= 59 ->
  Datetime.replace now hour minute
  = Ok (Datetime.make (Datetime.date now) hour minute 0 0).
Proof.
  intros Hh Hm. unfold Datetime.replace, Datetime.c_int.
  replace (- 2 ^ 31 <=? hour) with true by (symmetry; apply Z.leb_le; lia).
  replace (hour <? 2 ^ 31) with true by (symmetry; apply Z.ltb_lt; lia).
  replace (- 2 ^ 31 <=? minute) with true by (symmetry; apply Z.leb_le; lia).
  replace (minute <? 2 ^ 31) with true by (symmetry; apply Z.ltb_lt; lia).
  replace (0 <=? hour) with true by (symmetry; apply Z.leb_le; lia).
  replace (hour <=? 23) with true by (symmetry; apply Z.leb_le; lia).
  replace (0 <=? minute) with true by (symmetry; apply Z.leb_le; lia).
  replace (minute <=? 59) with true by (symmetry; apply Z.leb_le; lia).
  reflexivity.
Qed.

Lemma replace_Ok_inv now hour minute sched_dt :
  Datetime.replace now hour minute = Ok sched_dt ->
  0 <= hour <= 23 /\ 0 <= minute <= 59
  /\ sched_dt = Datetime.make (Datetime.date now) hour minute 0 0.
Proof.
  unfold Datetime.replace.
  destruct (negb (Datetime.c_int hour && Datetime.c_int minute));
    [discriminate|].
  destruct (Z.leb_spec 0 hour), (Z.leb_spec hour 23); simpl;
    try discriminate.
  destruct (Z.leb_spec 0 minute), (Z.leb_spec minute 59); simpl;
    try discriminate.
  intros Heq. inversion Heq. repeat split; lia.
Qed.

(** The inner loop returns exactly when every entry is fine, and then adds
    the items of the entries that parse, in order. *)
Lemma times_loop_ok db user_id now m times due :
  Forall entry_ok times ->
  times_loop db user_id now m times due
  = Ok (due ++ omap (item_of db user_id now m) times).
Proof.
  intros H. revert due. induction H as [|t times Ht _ IH]; intros due; simpl.
  - rewrite app_nil_r. reflexivity.
  - unfold entry_ok in Ht. unfold item_of at 1.
    destruct (parse_time t) as [[hour minute]|]; [|apply IH].
    destruct Ht as [Hh Hm]. rewrite (replace_in_range now hour minute Hh Hm).
    simpl. rewrite IH, <- app_assoc. reflexivity.
Qed.

Lemma times_loop_Ok_inv db user_id now m times due due' :
  times_loop db user_id now m times due = Ok due' -> Forall entry_ok times.
Proof.
  revert due. induction times as [|t times IH]; intros due; simpl.
  - constructor.
  - destruct (parse_time t) as [[hour minute]|] eqn:E.
    + destruct (Datetime.replace now hour minute) as [sched_dt|e] eqn:Er;
        [|discriminate].
      simpl. intros H. constructor; [|eapply IH, H].
      unfold entry_ok. rewrite E.
      apply replace_Ok_inv in Er. tauto.
    + intros H. constructor; [|eapply IH, H].
      unfold entry_ok. rewrite E. exact I.
Qed.


Lemma Forall_list_filter {A} (P : A -> Prop) (f : A -> bool) (l : list A) :
  Forall P (List.filter f l) <-> Forall (fun x => f x = true -> P x) l.
Proof.
  induction l as [|x l IH]; simpl.
  - split; constructor.
  - destruct (f x) eqn:E; rewrite ?Forall_cons, IH; intuition congruence.
Qed.

Lemma filter_all {A} (P : A -> Prop) `{!forall x, Decision (P x)}
      (l : list A) :
  Forall P l -> filter P l = l.
Proof.
  induction 1 as [|x l Hx _ IH]; [reflexivity|].
  rewrite filter_cons_True by exact Hx. rewrite IH. reflexivity.
Qed.

Lemma date_make d hour minute :
  0 <= hour <= 23 -> 0 <= minute <= 59 ->
  Datetime.date (Datetime.make d hour minute 0 0) = d.
Proof.
  intros Hh Hm. unfold Datetime.date, Datetime.make.
  symmetry. apply (Z.div_unique_pos _ _ _
    (hour * Datetime.us_per_hour + minute * Datetime.us_per_minute)).
  - unfold Datetime.us_per_day, Datetime.us_per_hour, Datetime.us_per_minute,
      Datetime.us_per_second. lia.
  - unfold Datetime.us_per_day, Datetime.us_per_hour, Datetime.us_per_minute,
      Datetime.us_per_second. lia.
Qed.

Lemma meds_loop_ok db user_id now meds due :
  let weekday := Datetime.weekday (Datetime.date now) in
  let scheduled m :=
    Py.mem weekday (MedicationSchedule.days_of_week (Medication.schedule m)) in
  Forall (fun m => scheduled m = true ->
                   Forall entry_ok
                     (MedicationSchedule.times (Medication.schedule m))) meds ->
  meds_loop db user_id now weekday meds due
  = Ok (due ++ concat (items_of db user_id now <$> List.filter scheduled meds)).
Proof.
  intros weekday scheduled H. revert due.
  induction H as [|m meds Hm _ IH]; intros due; simpl.
  - rewrite app_nil_r. reflexivity.
  - fold weekday. fold (scheduled m). destruct (scheduled m) eqn:E; simpl.
    + rewrite (times_loop_ok _ _ _ _ _ _ (Hm eq_refl)). simpl.
      rewrite IH, <- app_assoc. reflexivity.
    + apply IH.
Qed.

Lemma meds_loop_Ok_inv db user_id now meds due due' :
  let weekday := Datetime.weekday (Datetime.date now) in
  let scheduled m :=
    Py.mem weekday (MedicationSchedule.days_of_week (Medication.schedule m)) in
  meds_loop db user_id now weekday meds due = Ok due' ->
  Forall (fun m => scheduled m = true ->
                   Forall entry_ok
                     (MedicationSchedule.times (Medication.schedule m))) meds.
Proof.
  intros weekday scheduled. revert due.
  induction meds as [|m meds IH]; intros due; simpl; [constructor|].
  fold weekday. fold (scheduled m). destruct (scheduled m) eqn:E; simpl.
  - destruct (times_loop db user_id now m _ due) as [due1|e] eqn:Et;
      [|discriminate].
    simpl. intros H. constructor; [|eapply IH, H].
    intros _. eapply times_loop_Ok_inv, Et.
  - intros H. constructor; [congruence|eapply IH, H].
Qed.

Lemma items_of_today db user_id now m :
  Forall entry_ok (MedicationSchedule.times (Medication.schedule m)) ->
  Forall (fun d => Datetime.date (Dose.scheduled_at d) = Datetime.date now)
         (items_of db user_id now m).
Proof.
  unfold items_of. induction 1 as [|t times Ht _ IH]; simpl; [constructor|].
  unfold item_of at 1. unfold entry_ok in Ht.
  destruct (parse_time t) as [[hour minute]|]; simpl; [|exact IH].
  constructor; [|exact IH]. simpl. apply date_make; tauto.
Qed.

(** The loops as a comprehension: when every entry of the medications
    scheduled today is fine, the result is the sorted list of their items. *)
Lemma get_todays_doses_ok db user_id now :
  entries_today_ok db user_id now ->
  get_todays_doses db user_id now
  = Ok (Py.sort Dose.scheduled_at
          (concat (items_of db user_id now
                     <$> scheduled_today db user_id now))).
Proof.
  intros H. unfold get_todays_doses.
  unfold entries_today_ok, scheduled_today in H.
  apply Forall_list_filter in H.
  rewrite (meds_loop_ok db user_id now _ [] H). simpl. f_equal.
  apply filter_all, sort_Forall.
  apply Forall_concat, Forall_fmap.
  apply Forall_list_filter in H. 
  eapply Forall_impl; [exact H|]. intros m Hm. 
  apply items_of_today, Hm.
Qed.

Lemma get_todays_doses_Ok_inv db user_id now doses :
  get_todays_doses db user_id now = Ok doses ->
  entries_today_ok db user_id now.
Proof.
  unfold get_todays_doses. intros H.
  destruct (meds_loop db user_id now _ _ []) as [due|e] eqn:E;
    [|discriminate].
  apply meds_loop_Ok_inv in E. apply Forall_list_filter, E.
Qed.

(** X1. [today_meds] returns a list exactly when every time entry of the
    medications of the user scheduled on the weekday of [now] either does
    not parse or parses to an hour in 0..23 and a minute in 0..59; it
    raises otherwise. *)
Theorem today_meds_returns_iff db user_id now :
  (exists doses, today_meds db user_id now = Ok doses)
  <-> entries_today_ok db user_id now.
Proof.
  unfold today_meds. split.
  - intros [doses H]. eapply get_todays_doses_Ok_inv, H.
  - intros H. eexists. apply get_todays_doses_ok, H.
Qed.

(** An entry whose hour has more digits than [int] converts is skipped like
    any other entry that does not parse; the well-formed one is resolved. *)
Example parse_time_long_literal :
  parse_time (Scenario.repeat_char "9" 4301 ++ ":00")%string = None
  /\ parse_time (Scenario.repeat_char "0" 4300 ++ "8:00")%string = None
  /\ parse_time (Scenario.repeat_char "0" 4298 ++ "8:00")%string
     = Some (8, 0).
Proof. vm_compute. repeat split; reflexivity. Qed.

Example today_meds_long_literal :
  today_meds Scenario.db_long_literal "u1"
    (Datetime.make Sample.monday 7 0 0 0)
  = Ok [Sample.dose "m1" "Aspirin" "100mg" 8 0 "pending"].
Proof. vm_compute. reflexivity. Qed.

Lemma list_filter_none {A} (f : A -> bool) (l : list A) :
  Forall (fun x => f x = false) l -> List.filter f l = [].
Proof.
  induction 1 as [|x l Hx _ IH]; simpl; [reflexivity|].
  rewrite Hx. exact IH.
Qed.

(** X2. When no medication of the user is scheduled on the weekday of
    [now], the today list is empty, whatever the time entries are. *)
Theorem get_todays_doses_off_day db user_id now :
  Forall (fun m =>
            Py.mem (Datetime.weekday (Datetime.date now))
              (MedicationSchedule.days_of_week (Medication.schedule m))
            = false)
         (Store.find_medications db user_id) ->
  get_todays_doses db user_id now = Ok [].
Proof.
  intros H. rewrite get_todays_doses_ok.
  - unfold scheduled_today. rewrite (list_filter_none _ _ H). reflexivity.
  - unfold entries_today_ok, scheduled_today.
    rewrite (list_filter_none _ _ H). constructor.
Qed.

Lemma get_todays_doses_off_day_witness :
  let now := Datetime.make Scenario.tuesday 8 0 0 0 in
  Datetime.weekday (Datetime.date now) = 1
  /\ get_todays_doses Scenario.db_mon_wed_fri "u1" now = Ok [].
Proof.
  intros now. split; [reflexivity|].
  apply (get_todays_doses_off_day Scenario.db_mon_wed_fri "u1" now).
  repeat constructor.
Defined.

(** X3. A returned today list holds exactly one item per time entry that
    parses, of each medication of the user scheduled today (with the data
    of that medication, today's date at the parsed time, and the status
    resolved under its key); it is in ascending order of scheduled instant,
    whatever the order of the entries, and every item is on the date of
    [now]. *)
Theorem get_todays_doses_items db user_id now doses :
  get_todays_doses db user_id now = Ok doses ->
  doses ≡ₚ concat (items_of db user_id now
                     <$> scheduled_today db user_id now)
  /\ Sorted (fun a b => Dose.scheduled_at a <= Dose.scheduled_at b) doses
  /\ Forall (fun d => Datetime.date (Dose.scheduled_at d)
                      = Datetime.date now) doses.
Proof.
  intros H. pose proof (get_todays_doses_Ok_inv _ _ _ _ H) as Hok.
  rewrite (get_todays_doses_ok _ _ _ Hok) in H. inversion H; subst.
  split; [apply sort_Permutation|]. split; [apply sort_Sorted|].
  apply sort_Forall, Forall_concat, Forall_fmap.
  eapply Forall_impl; [exact Hok|]. intros m Hm. apply items_of_today, Hm.
Qed.

Lemma get_todays_doses_items_witness :
  let now := Datetime.make Sample.monday 12 0 0 0 in
  get_todays_doses Scenario.db_unordered "u1" now
  = Ok [Sample.dose "m1" "Aspirin" "100mg" 8 0 "pending";
        Sample.dose "m1" "Aspirin" "100mg" 20 0 "pending"]
  /\ Sorted (fun a b => Dose.scheduled_at a <= Dose.scheduled_at b)
            [Sample.dose "m1" "Aspirin" "100mg" 8 0 "pending";
             Sample.dose "m1" "Aspirin" "100mg" 20 0 "pending"].
Proof.
  intros now.
  assert (get_todays_doses Scenario.db_unordered "u1" now
          = Ok [Sample.dose "m1" "Aspirin" "100mg" 8 0 "pending";
                Sample.dose "m1" "Aspirin" "100mg" 20 0 "pending"]) as H
      by (vm_compute; reflexivity).
  split; [exact H|].
  apply (get_todays_doses_items Scenario.db_unordered "u1" now _ H).
Defined.

Lemma replace_date_only now1 now2 hour minute :
  Datetime.date now1 = Datetime.date now2 ->
  Datetime.replace now1 hour minute = Datetime.replace now2 hour minute.
Proof. intros H. unfold Datetime.replace. rewrite H. reflexivity. Qed.

Lemma times_loop_date_only db user_id now1 now2 m times due :
  Datetime.date now1 = Datetime.date now2 ->
  times_loop db user_id now1 m times due
  = times_loop db user_id now2 m times due.
Proof.
  intros H. revert due. induction times as [|t times IH]; intros due; simpl.
  - reflexivity.
  - destruct (parse_time t) as [[hour minute]|]; [|apply IH].
    rewrite (replace_date_only now1 now2 hour minute H).
    destruct (Datetime.replace now2 hour minute); simpl; [apply IH|].
    reflexivity.
Qed.

Lemma meds_loop_date_only db user_id now1 now2 weekday meds due :
  Datetime.date now1 = Datetime.date now2 ->
  meds_loop db user_id now1 weekday meds due
  = meds_loop db user_id now2 weekday meds due.
Proof.
  intros H. revert due. induction meds as [|m meds IH]; intros due; simpl.
  - reflexivity.
  - destruct (negb _); [apply IH|].
    rewrite (times_loop_date_only db user_id now1 now2 m _ due H).
    destruct (times_loop db user_id now2 m _ due); simpl; [apply IH|].
    reflexivity.
Qed.

(** The today list depends on [now] through its date only. *)
Lemma get_todays_doses_same_date db user_id now1 now2 :
  Datetime.date now1 = Datetime.date now2 ->
  get_todays_doses db user_id now1 = get_todays_doses db user_id now2.
Proof.
  intros H. unfold get_todays_doses. rewrite H.
  rewrite (meds_loop_date_only db user_id now1 now2 _ _ [] H).
  reflexivity.
Qed.

(** X4. The today list does not depend on the time of day: two instants of
    the same UTC date give the same result, so a dose stays listed, with
    its status, after its time has passed. *)
Theorem get_todays_doses_any_time_of_day db user_id now1 now2 :
  Datetime.date now1 = Datetime.date now2 ->
  get_todays_doses db user_id now1 = get_todays_doses db user_id now2.
Proof. apply get_todays_doses_same_date. Qed.

Lemma get_todays_doses_any_time_of_day_witness :
  Datetime.date (Datetime.make Sample.monday 0 0 0 0)
  = Datetime.date (Datetime.make Sample.monday 23 59 59 999999)
  /\ get_todays_doses Sample.db_morning_evening "u1"
       (Datetime.make Sample.monday 0 0 0 0)
     = get_todays_doses Sample.db_morning_evening "u1"
         (Datetime.make Sample.monday 23 59 59 999999).
Proof.
  split; [reflexivity|].
  apply (get_todays_doses_any_time_of_day Sample.db_morning_evening "u1").
  reflexivity.
Defined.

Lemma hh_mm_all :
  forallb (fun hour =>
             forallb (fun minute =>
                        bool_decide (parse_time (hh_mm hour minute)
                                     = Some (hour, minute)))
                     (seqZ 0 60))
          (seqZ 0 24) = true.
Proof. vm_compute. reflexivity. Qed.

(** X5. Every time of day written [HH:MM], hour 00..23 and minute 00..59,
    parses to that hour and minute, so a schedule in the documented format
    never makes the today list raise. *)
Theorem parse_time_hh_mm hour minute :
  0 <= hour <= 23 -> 0 <= minute <= 59 ->
  parse_time (hh_mm hour minute) = Some (hour, minute)
  /\ entry_ok (hh_mm hour minute).
Proof.
  intros Hh Hm.
  assert (parse_time (hh_mm hour minute) = Some (hour, minute)) as H.
  { pose proof hh_mm_all as Hall.
    rewrite forallb_forall in Hall.
    assert (In hour (seqZ 0 24)) as Hi
        by (apply list_elem_of_In, elem_of_seqZ; lia).
    specialize (Hall hour Hi). rewrite forallb_forall in Hall.
    assert (In minute (seqZ 0 60)) as Hj
        by (apply list_elem_of_In, elem_of_seqZ; lia).
    specialize (Hall minute Hj). apply bool_decide_eq_true in Hall.
    exact Hall. }
  split; [exact H|]. unfold entry_ok. rewrite H. tauto.
Qed.

Lemma parse_time_hh_mm_witness :
  hh_mm 7 5 = "07:05" /\ parse_time "07:05" = Some (7, 5).
Proof.
  split; [reflexivity|].
  apply (parse_time_hh_mm 7 5); lia.
Defined.

(** ** [mark_taken] and [snooze] *)

Lemma upsert_absent set q c :
  List.find (Store.matches q) c = None ->
  Store.upsert q set c = c ++ [set (Store.fresh q)].
Proof.
  induction c as [|lg c IH]; simpl; [reflexivity|].
  destruct (Store.matches q lg); [discriminate|].
  intros H. rewrite IH by exact H. reflexivity.
Qed.

Lemma upsert_length set q c :
  length (Store.upsert q set c)
  = (length c + match List.find (Store.matches q) c with
                | Some _ => 0
                | None => 1
                end)%nat.
Proof.
  induction c as [|lg c IH]; simpl; [reflexivity|].
  destruct (Store.matches q lg); simpl; [lia|].
  rewrite IH. reflexivity.
Qed.

Lemma matches_doc_key q lg :
  Store.matches q lg = true <-> doc_key lg = doc_key (Store.fresh q).
Proof.
  unfold Store.matches, doc_key, Store.fresh; simpl.
  rewrite !andb_true_iff, !bool_decide_eq_true.
  split; [intros [[-> ->] ->]; reflexivity|].
  intros H. inversion H. auto.
Qed.

Lemma find_none_doc_key q c :
  List.find (Store.matches q) c = None ->
  doc_key (Store.fresh q) ∉ doc_key <$> c.
Proof.
  induction c as [|lg c IH]; [intros _; apply not_elem_of_nil|].
  cbn [List.find]. destruct (Store.matches q lg) eqn:E; [discriminate|].
  intros H. rewrite fmap_cons. apply not_elem_of_cons. split; [|apply IH, H].
  intros Heq. symmetry in Heq. apply matches_doc_key in Heq. congruence.
Qed.

Lemma upsert_doc_keys set q c :
  keeps_key set ->
  doc_key <$> Store.upsert q set c
  = (doc_key <$> c)
    ++ match List.find (Store.matches q) c with
       | Some _ => []
       | None => [doc_key (Store.fresh q)]
       end.
Proof.
  intros Hk.
  assert (forall lg, doc_key (set lg) = doc_key lg) as Hd.
  { intros lg. destruct (Hk lg) as (H1 & H2 & H3). unfold doc_key.
    rewrite H1, H2, H3. reflexivity. }
  induction c as [|lg c IH]; cbn [Store.upsert List.find].
  - rewrite fmap_cons, Hd. reflexivity.
  - destruct (Store.matches q lg); rewrite !fmap_cons.
    + rewrite Hd, app_nil_r. reflexivity.
    + rewrite IH. reflexivity.
Qed.

Lemma upsert_unique set q c :
  keeps_key set ->
  NoDup (doc_key <$> c) -> NoDup (doc_key <$> Store.upsert q set c).
Proof.
  intros Hk Hn. rewrite upsert_doc_keys by exact Hk.
  destruct (List.find (Store.matches q) c) eqn:E.
  - rewrite app_nil_r. exact Hn.
  - apply NoDup_app. split; [exact Hn|]. split.
    + intros k Hin Hk'. apply list_elem_of_singleton in Hk'. subst k.
      exact (find_none_doc_key q c E Hin).
    + apply NoDup_singleton.
Qed.

(** The store a voice command leaves: the one it got, or that one with one
    event of the speaker set to "snoozed". *)
Lemma voice_command_store cmd now db r db' :
  voice_command cmd now db = Ok (r, db') ->
  db' = db
  \/ (is_query_intent (Py.strip (Py.lower (VoiceCommandIn.text cmd))) = false
      /\ is_reminder_intent (Py.strip (Py.lower (VoiceCommandIn.text cmd)))
         = true
      /\ exists doses top rest,
          get_todays_doses db (VoiceCommandIn.user_id cmd) now = Ok doses
          /\ filter (fun d => is_pending d = true) doses = top :: rest
          /\ db' = Store.update_one db
                     (dose_key (VoiceCommandIn.user_id cmd) top)
                     (set_snoozed
                        (Datetime.add_minutes now
                           (extract_minutes
                              (Py.strip (Py.lower (VoiceCommandIn.text cmd)))))
                        now)).
Proof.
  unfold voice_command.
  set (text_lower := Py.strip (Py.lower (VoiceCommandIn.text cmd))).
  destruct (is_query_intent text_lower) eqn:Eq.
  - destruct (get_todays_doses db _ now) as [doses|e]; [|discriminate].
    simpl. destruct (filter _ doses) as [|p ps].
    + intros H. inversion H. left. reflexivity.
    + destruct (Py.sort _ (p :: ps)); [discriminate|].
      intros H. inversion H. left. reflexivity.
  - destruct (is_reminder_intent text_lower) eqn:Er.
    + destruct (get_todays_doses db _ now) as [doses|e] eqn:Ed;
        [|discriminate].
      simpl. destruct (filter _ doses) as [|top rest] eqn:Ef.
      * intros H. inversion H. left. reflexivity.
      * intros H. inversion H. right. repeat split.
        exists doses, top, rest. repeat split; assumption.
    + intros H. inversion H. left. reflexivity.
Qed.

(** X6. Each write creates a dose event exactly when none is stored under
    the key: after [mark_taken], and after a [snooze] that returns, the
    number of stored events has grown by one then, and is the same
    otherwise. A [snooze] whose [until] leaves the range of [datetime]
    raises [OverflowError] and leaves the store as it was. *)
Theorem writes_create_when_absent db take snz t1 t2 :
  let grows (q : Store.key) : nat :=
    match Store.find_one db q with
    | Some _ => 0%nat
    | None => 1%nat
    end in
  let q := Store.mkKey (SnoozeIn.user_id snz) (SnoozeIn.medication_id snz)
                       (SnoozeIn.scheduled_at snz) in
  let db' := snd (snooze_or_raise snz t1 t2 db) in
  length (doselog (mark_taken take t1 t2 db))
  = (length (doselog db) + grows (take_key take))%nat
  /\ match fst (snooze_or_raise snz t1 t2 db) with
     | Ok until =>
         in_datetime_range until = true
         /\ until = Datetime.add_minutes t1 (SnoozeIn.minutes snz)
         /\ length (doselog db') = (length (doselog db) + grows q)%nat
     | Raise e =>
         in_datetime_range
           (Datetime.add_minutes t1 (SnoozeIn.minutes snz)) = false
         /\ e = OverflowError /\ db' = db
     end.
Proof.
  intros grows q db'. subst db'. split.
  - unfold mark_taken, Store.update_one; simpl. rewrite upsert_length.
    reflexivity.
  - unfold snooze_or_raise.
    destruct (in_datetime_range
                (Datetime.add_minutes t1 (SnoozeIn.minutes snz))) eqn:E;
      cbn [fst snd].
    + unfold snooze. cbn [fst snd]. split; [exact E|].
      split; [reflexivity|].
      unfold Store.update_one; simpl. rewrite upsert_length. reflexivity.
    + repeat split.
Qed.

Example snooze_or_raise_huge_minutes :
  snooze_or_raise
    (SnoozeIn.mk "u1" "m1" (Datetime.make Sample.monday 8 0 0 0)
                 10000000000)
    (Datetime.make Sample.monday 7 0 0 0)
    (Datetime.make Sample.monday 7 0 0 0) Sample.db_morning_evening
  = (Raise OverflowError, Sample.db_morning_evening).
Proof. vm_compute. reflexivity. Qed.

(** X7. The handlers that write keep the dose events unique per key: if no
    two stored events share (user, medication, scheduled instant) before
    [mark_taken], [snooze] or a voice command, none do after. *)
Theorem writes_keep_keys_unique db :
  unique_keys db ->
  (forall take t1 t2, unique_keys (mark_taken take t1 t2 db))
  /\ (forall snz t1 t2, unique_keys (snd (snooze snz t1 t2 db)))
  /\ (forall cmd now r db',
        voice_command cmd now db = Ok (r, db') -> unique_keys db').
Proof.
  intros Hu. split; [|split].
  - intros take t1 t2. unfold unique_keys, mark_taken, Store.update_one.
    simpl. apply upsert_unique; [apply set_taken_keeps_key|exact Hu].
  - intros snz t1 t2. unfold unique_keys, snooze, Store.update_one.
    simpl. apply upsert_unique; [apply set_snoozed_keeps_key|exact Hu].
  - intros cmd now r db' H.
    apply voice_command_store in H as [->|(_ & _ & doses & top & rest & _ & _ & ->)];
      [exact Hu|].
    unfold unique_keys, Store.update_one. simpl.
    apply upsert_unique; [apply set_snoozed_keeps_key|exact Hu].
Qed.

Lemma writes_keep_keys_unique_witness :
  unique_keys Sample.db_snoozed_day
  /\ unique_keys (mark_taken Sample.take_m1_0800 0 0 Sample.db_snoozed_day).
Proof.
  assert (unique_keys Sample.db_snoozed_day) as H
      by (apply NoDup_singleton).
  split; [exact H|].
  apply (writes_keep_keys_unique Sample.db_snoozed_day H).
Defined.

(** X8. A write touches one key only: after [mark_taken] or [snooze], the
    event found under any other key is the one found before, and the
    medications are the same. *)
Theorem writes_leave_other_keys db take snz t1 t2 q :
  q <> take_key take ->
  q <> Store.mkKey (SnoozeIn.user_id snz) (SnoozeIn.medication_id snz)
                   (SnoozeIn.scheduled_at snz) ->
  Store.find_one (mark_taken take t1 t2 db) q = Store.find_one db q
  /\ medication (mark_taken take t1 t2 db) = medication db
  /\ Store.find_one (snd (snooze snz t1 t2 db)) q = Store.find_one db q
  /\ medication (snd (snooze snz t1 t2 db)) = medication db.
Proof.
  intros H1 H2. unfold mark_taken, snooze. cbn [snd]. fold (take_key take).
  rewrite !find_one_update_one
    by (apply set_taken_keeps_key || apply set_snoozed_keeps_key).
  rewrite !decide_False by assumption. repeat split.
Qed.

Lemma writes_leave_other_keys_witness :
  let q := Store.mkKey "u1" "m1" (Datetime.make Sample.monday 8 0 0 0) in
  let take := TakeActionIn.mk "u1" "m2" (Datetime.make Sample.monday 8 0 0 0) in
  Store.find_one (mark_taken take 0 0 Sample.db_snoozed_day) q
  = Store.find_one Sample.db_snoozed_day q.
Proof.
  intros q take.
  apply (writes_leave_other_keys Sample.db_snoozed_day take
           (SnoozeIn.mk "u1" "m2" (Datetime.make Sample.monday 8 0 0 0) 15)
           0 0 q); discriminate.
Defined.

(** X9. The last write decides the status and leaves the timestamp of the
    other kind in place: where the snooze returns ([until] within the range
    of [datetime]), taking a snoozed dose gives status "taken" with the
    [snooze_until] of the snooze still stored, and snoozing a taken dose
    gives status "snoozed" with its [taken_at] still stored. *)
Theorem take_and_snooze_overwrite db user_id medication_id scheduled_at
        minutes t1 t2 t3 t4 :
  let q := Store.mkKey user_id medication_id scheduled_at in
  let take := TakeActionIn.mk user_id medication_id scheduled_at in
  let snz := SnoozeIn.mk user_id medication_id scheduled_at minutes in
  in_datetime_range (Datetime.add_minutes t1 minutes) = true ->
  in_datetime_range (Datetime.add_minutes t3 minutes) = true ->
  (exists ev,
      Store.find_one
        (mark_taken take t3 t4 (snd (snooze_or_raise snz t1 t2 db))) q
      = Some ev
      /\ DoseLog.status ev = Some "taken"
      /\ DoseLog.taken_at ev = Some t3
      /\ DoseLog.snooze_until ev = Some (Datetime.add_minutes t1 minutes)
      /\ DoseLog.updated_at ev = Some t4)
  /\ (exists ev,
         Store.find_one
           (snd (snooze_or_raise snz t3 t4 (mark_taken take t1 t2 db))) q
         = Some ev
         /\ DoseLog.status ev = Some "snoozed"
         /\ DoseLog.taken_at ev = Some t1
         /\ DoseLog.snooze_until ev = Some (Datetime.add_minutes t3 minutes)
         /\ DoseLog.updated_at ev = Some t4).
Proof.
  intros q take snz H1 H3. unfold snooze_or_raise, snz.
  cbn [SnoozeIn.minutes]. rewrite H1, H3.
  unfold mark_taken, snooze, take. cbn [snd
    TakeActionIn.user_id TakeActionIn.medication_id TakeActionIn.scheduled_at
    SnoozeIn.user_id SnoozeIn.medication_id SnoozeIn.scheduled_at
    SnoozeIn.minutes]. fold q.
  rewrite !find_one_update_one
    by (apply set_taken_keeps_key || apply set_snoozed_keeps_key).
  rewrite !decide_True by reflexivity. simpl.
  split; eexists; (split; [reflexivity|]); simpl; repeat split.
Qed.

Lemma take_and_snooze_overwrite_witness :
  let t1 := Datetime.make Sample.monday 8 0 0 0 in
  let t3 := Datetime.make Sample.monday 8 10 0 0 in
  let q := Store.mkKey "u1" "m1" t1 in
  let take := TakeActionIn.mk "u1" "m1" t1 in
  let snz := SnoozeIn.mk "u1" "m1" t1 15 in
  in_datetime_range (Datetime.add_minutes t1 15) = true
  /\ exists ev,
      Store.find_one
        (mark_taken take t3 t3
           (snd (snooze_or_raise snz t1 t1 Sample.db_morning_evening))) q
      = Some ev
      /\ DoseLog.status ev = Some "taken"
      /\ DoseLog.taken_at ev = Some t3
      /\ DoseLog.snooze_until ev = Some (Datetime.add_minutes t1 15)
      /\ DoseLog.updated_at ev = Some t3.
Proof.
  intros t1 t3 q take snz. split; [reflexivity|].
  apply (take_and_snooze_overwrite Sample.db_morning_evening "u1" "m1" t1 15
           t1 t1 t3 t3); reflexivity.
Defined.

(** ** The today list after a write *)

Section AfterWrite.
Variables (db : Database) (user_id : string) (now : Z).
Variables (q : Store.key) (set : DoseLog.t -> DoseLog.t) (s : string).
Hypothesis set_keeps_key : keeps_key set.
Hypothesis set_status : forall lg, DoseLog.status (set lg) = Some s.

Let db' := Store.update_one db q set.
Let f := reports s user_id q.

Lemma resolved_status_written k :
  resolved_status db' k
  = if decide (k = q) then Some s else resolved_status db k.
Proof.
  unfold resolved_status. subst db'.
  rewrite find_one_update_one by exact set_keeps_key.
  destruct (decide (k = q)); [apply set_status|reflexivity].
Qed.

Lemma times_loop_written m times (due : list Dose.t) :
  times_loop db' user_id now m times (f <$> due)
  = fmap (M:=list) f <$> times_loop db user_id now m times due.
Proof.
  revert due. induction times as [|t times IH]; simpl; intros due.
  - reflexivity.
  - destruct (parse_time t) as [[hour minute]|]; [|apply IH].
    destruct (Datetime.replace now hour minute) as [sched_dt|e];
      [|reflexivity].
    simpl. rewrite <- IH. f_equal. rewrite fmap_app. f_equal. simpl.
    f_equal. unfold f, reports, dose_key; simpl.
    fold (resolved_status db'
            (Store.mkKey user_id (Medication._id m) sched_dt)).
    fold (resolved_status db
            (Store.mkKey user_id (Medication._id m) sched_dt)).
    rewrite resolved_status_written.
    destruct (decide (_ = q)); reflexivity.
Qed.

Lemma meds_loop_written weekday meds (due : list Dose.t) :
  meds_loop db' user_id now weekday meds (f <$> due)
  = fmap (M:=list) f <$> meds_loop db user_id now weekday meds due.
Proof.
  revert due. induction meds as [|m meds IH]; simpl; intros due.
  - reflexivity.
  - destruct (negb _); [apply IH|].
    rewrite times_loop_written.
    destruct (times_loop db user_id now m _ due) as [due1|e];
      [|reflexivity].
    simpl. apply IH.
Qed.

Lemma get_todays_doses_written :
  get_todays_doses db' user_id now
  = fmap (M:=list) f <$> get_todays_doses db user_id now.
Proof.
  unfold get_todays_doses.
  change (Store.find_medications db' user_id)
    with (Store.find_medications db user_id).
  change (@nil Dose.t) with (f <$> @nil Dose.t) at 1.
  rewrite meds_loop_written.
  destruct (meds_loop db user_id now _ _ []) as [due|e]; [|reflexivity].
  simpl. f_equal.
  assert (forall x, Dose.scheduled_at (f x) = Dose.scheduled_at x) as Hs.
  { intros x. unfold f, reports. destruct (decide _); reflexivity. }
  rewrite sort_fmap by exact Hs.
  apply filter_fmap_same. intros x. rewrite Hs. reflexivity.
Qed.
End AfterWrite.

Lemma reports_other_user s user_id q (l : list Dose.t) :
  Store.k_user_id q <> user_id -> reports s user_id q <$> l = l.
Proof.
  intros H. rewrite <- (list_fmap_id l) at 2. apply list_fmap_ext.
  intros _ d _. unfold reports. rewrite decide_False; [reflexivity|].
  intros Hq. apply H. rewrite <- Hq. reflexivity.
Qed.

Lemma set_taken_status t u lg : DoseLog.status (set_taken t u lg) = Some "taken".
Proof. reflexivity. Qed.

Lemma set_snoozed_status t u lg :
  DoseLog.status (set_snoozed t u lg) = Some "snoozed".
Proof. reflexivity. Qed.

(** X10. After [mark_taken], the today list of any user at any instant is
    the list before the call with the items of the taken key reporting
    "taken" (it raises if it raised before); an item of that key is then
    not among the pending or snoozed ones any more. *)
Theorem today_after_mark_taken db take t1 t2 user_id now :
  get_todays_doses (mark_taken take t1 t2 db) user_id now
  = fmap (M:=list) (reports "taken" user_id (take_key take))
      <$> get_todays_doses db user_id now
  /\ forall d, is_pending (reports "taken" user_id (dose_key user_id d) d)
               = false.
Proof.
  split.
  - unfold mark_taken. fold (take_key take).
    apply get_todays_doses_written;
      [apply set_taken_keeps_key|apply set_taken_status].
  - intros d. unfold reports. rewrite decide_True by reflexivity.
    reflexivity.
Qed.

(** X11. The writes of one user do not show in the today list of another:
    after [mark_taken] or [snooze] under a key of user [a], the today list
    of any other user is what it was. *)
Theorem today_of_other_users db take snz t1 t2 user_id now :
  TakeActionIn.user_id take <> user_id ->
  SnoozeIn.user_id snz <> user_id ->
  get_todays_doses (mark_taken take t1 t2 db) user_id now
  = get_todays_doses db user_id now
  /\ get_todays_doses (snd (snooze snz t1 t2 db)) user_id now
     = get_todays_doses db user_id now.
Proof.
  intros H1 H2. unfold mark_taken, snooze. cbn [snd]. split.
  - rewrite (get_todays_doses_written db user_id now _ _ "taken"
               (set_taken_keeps_key _ _) (set_taken_status _ _)).
    destruct (get_todays_doses db user_id now) as [l|e]; [|reflexivity].
    simpl. rewrite reports_other_user by exact H1. reflexivity.
  - rewrite (get_todays_doses_written db user_id now _ _ "snoozed"
               (set_snoozed_keeps_key _ _) (set_snoozed_status _ _)).
    destruct (get_todays_doses db user_id now) as [l|e]; [|reflexivity].
    simpl. rewrite reports_other_user by exact H2. reflexivity.
Qed.

Lemma today_of_other_users_witness :
  let now := Datetime.make Sample.monday 9 0 0 0 in
  let take := TakeActionIn.mk "u2" "m1" (Datetime.make Sample.monday 8 0 0 0) in
  get_todays_doses (mark_taken take now now Sample.db_morning_evening) "u1" now
  = get_todays_doses Sample.db_morning_evening "u1" now.
Proof.
  intros now take.
  apply (today_of_other_users Sample.db_morning_evening take
           (SnoozeIn.mk "u2" "m1" 0 15) now now "u1" now); discriminate.
Defined.

(** ** [voice_command] *)

(** X12. A voice command that returns never changes the medications,
    writes nothing when it is served by the query intent or by the
    fallback, adds at most one dose event, and leaves the events of every
    user other than the speaker as they were. *)
Theorem voice_command_footprint cmd now db r db' :
  let text_lower := Py.strip (Py.lower (VoiceCommandIn.text cmd)) in
  voice_command cmd now db = Ok (r, db') ->
  medication db' = medication db
  /\ (is_query_intent text_lower = true
      \/ is_reminder_intent text_lower = false -> db' = db)
  /\ (length (doselog db) <= length (doselog db')
      <= length (doselog db) + 1)%nat
  /\ forall q, Store.k_user_id q <> VoiceCommandIn.user_id cmd ->
               Store.find_one db' q = Store.find_one db q.
Proof.
  intros text_lower H.
  apply voice_command_store in H
      as [->|(Hq & Hr & doses & top & rest & _ & _ & ->)].
  - repeat split; auto; lia.
  - fold text_lower in Hq, Hr. split; [reflexivity|]. split.
    { intros [Hc|Hc]; congruence. }
    split.
    { unfold Store.update_one; simpl. rewrite upsert_length.
      destruct (List.find _ _); lia. }
    intros q Hne. rewrite find_one_update_one by apply set_snoozed_keeps_key.
    rewrite decide_False; [reflexivity|].
    intros ->. apply Hne. reflexivity.
Qed.

Lemma voice_command_footprint_witness :
  let now := Datetime.make Sample.monday 19 55 0 0 in
  let db := Sample.db_morning_evening in
  exists r db',
    voice_command (VoiceCommandIn.mk "Remind me in 10 minutes" "u1") now db
    = Ok (r, db')
    /\ medication db' = medication db
    /\ length (doselog db') = 1%nat.
Proof.
  intros now db.
  assert (exists r db',
             voice_command (VoiceCommandIn.mk "Remind me in 10 minutes" "u1")
               now db = Ok (r, db')) as [r [db' H]]
      by (eexists _, _; vm_compute; reflexivity).
  exists r, db'. split; [exact H|].
  pose proof (voice_command_footprint _ now db r db' H) as (Hm & _ & Hl & _).
  split; [exact Hm|]. simpl in Hl.
  vm_compute in H. inversion H. reflexivity.
Defined.

(** X13. A voice command raises exactly when it is served by one of the
    two intents and the today list of the speaker raises, with the same
    exception; the fallback never raises. *)
Theorem voice_command_raises_iff cmd now db e :
  let text_lower := Py.strip (Py.lower (VoiceCommandIn.text cmd)) in
  voice_command cmd now db = Raise e
  <-> (is_query_intent text_lower = true
       \/ is_reminder_intent text_lower = true)
      /\ get_todays_doses db (VoiceCommandIn.user_id cmd) now = Raise e.
Proof.
  intros text_lower. unfold voice_command. fold text_lower.
  destruct (is_query_intent text_lower) eqn:Eq.
  - destruct (get_todays_doses db _ now) as [doses|e'].
    + simpl. destruct (filter _ doses) as [|p ps].
      * split; [discriminate|intros [_ H]; discriminate].
      * destruct (Py.sort (minutes_from_now now) (p :: ps)) eqn:Es.
        { apply (f_equal length) in Es. rewrite sort_length in Es.
          discriminate. }
        split; [discriminate|intros [_ H]; discriminate].
    + simpl. split.
      * intros H. split; [left; reflexivity|]. congruence.
      * intros [_ H]. congruence.
  - destruct (is_reminder_intent text_lower) eqn:Er.
    + destruct (get_todays_doses db _ now) as [doses|e'].
      * simpl. destruct (filter _ doses);
          (split; [discriminate|intros [_ H]; discriminate]).
      * simpl. split.
        -- intros H. split; [right; reflexivity|]. congruence.
        -- intros [_ H]. congruence.
    + split; [discriminate|]. intros [[H|H] _]; discriminate.
Qed.

(** X14. The minute count of a reminder is always one of 5, 10, 15, 20, 30
    and 60 (never 45), and it is 15 exactly when none of "5", "10", "20",
    "30" and "60" occurs in the text: 15 is only ever the default. *)
Theorem extract_minutes_range text_lower :
  In (extract_minutes text_lower) [5; 10; 15; 20; 30; 60]
  /\ (extract_minutes text_lower = 15
      <-> Py.contains "5" text_lower = false
          /\ Py.contains "10" text_lower = false
          /\ Py.contains "20" text_lower = false
          /\ Py.contains "30" text_lower = false
          /\ Py.contains "60" text_lower = false).
Proof.
  unfold extract_minutes. simpl ladder_loop.
  change (Py.str 5) with "5". change (Py.str 10) with "10".
  change (Py.str 15) with "15". change (Py.str 20) with "20".
  change (Py.str 30) with "30". change (Py.str 45) with "45".
  change (Py.str 60) with "60".
  destruct (Py.contains "5" text_lower) eqn:E5.
  { split; [simpl; tauto|]. split; [discriminate|]. intros [H _].
    discriminate. }
  destruct (Py.contains "10" text_lower) eqn:E10.
  { split; [simpl; tauto|]. split; [discriminate|]. intros (_ & H & _).
    discriminate. }
  destruct (Py.contains "15" text_lower) eqn:E15.
  { apply contains_tail in E15. congruence. }
  destruct (Py.contains "20" text_lower) eqn:E20.
  { split; [simpl; tauto|]. split; [discriminate|]. intros (_ & _ & H & _).
    discriminate. }
  destruct (Py.contains "30" text_lower) eqn:E30.
  { split; [simpl; tauto|]. split; [discriminate|].
    intros (_ & _ & _ & H & _). discriminate. }
  destruct (Py.contains "45" text_lower) eqn:E45.
  { apply contains_tail in E45. congruence. }
  destruct (Py.contains "60" text_lower) eqn:E60.
  { split; [simpl; tauto|]. split; [discriminate|].
    intros (_ & _ & _ & _ & H). discriminate. }
  split; [simpl; tauto|]. split; [auto|reflexivity].
Qed.

(** X15. The query intent names the first item, in the order of the today
    list, among the pending or snoozed items of least [minutes_from_now]:
    every item before it in that list has a strictly greater key, every
    item after it a greater or equal one; the store is left as it was. *)
Theorem query_names_first_of_least_key cmd now db doses :
  let text_lower := Py.strip (Py.lower (VoiceCommandIn.text cmd)) in
  let pending := filter (fun d => is_pending d = true) doses in
  is_query_intent text_lower = true ->
  get_todays_doses db (VoiceCommandIn.user_id cmd) now = Ok doses ->
  pending <> [] ->
  exists before top after,
    pending = before ++ top :: after
    /\ Forall (fun d => minutes_from_now now top < minutes_from_now now d)
              before
    /\ Forall (fun d => minutes_from_now now top <= minutes_from_now now d)
              after
    /\ voice_command cmd now db = Ok (take_response top, db).
Proof.
  intros text_lower pending Hq Hd Hp.
  destruct (voice_query_names_first_min cmd now db doses Hq Hd Hp)
    as (top & Hmin & Hv).
  destruct (first_min_spec _ _ _ Hmin) as (before & after & He & Hb & Ha).
  exists before, top, after. repeat split; assumption.
Qed.

Lemma query_names_first_of_least_key_witness :
  let now := Datetime.make Sample.monday 9 0 0 0 in
  let cmd := VoiceCommandIn.mk "What medicine do I take now?" "u1" in
  let doses := [Sample.dose "m2" "Metformin" "500mg" 9 5 "pending";
                Sample.dose "m1" "Aspirin" "100mg" 10 0 "snoozed"] in
  get_todays_doses Sample.db_five_sixty "u1" now = Ok doses
  /\ exists before top after,
      filter (fun d => is_pending d = true) doses = before ++ top :: after
      /\ Forall (fun d => minutes_from_now now top < minutes_from_now now d)
                before
      /\ Forall (fun d => minutes_from_now now top <= minutes_from_now now d)
                after
      /\ voice_command cmd now Sample.db_five_sixty
         = Ok (take_response top, Sample.db_five_sixty).
Proof.
  intros now cmd doses.
  assert (get_todays_doses Sample.db_five_sixty "u1" now = Ok doses) as H
      by (vm_compute; reflexivity).
  split; [exact H|].
  apply (query_names_first_of_least_key cmd now Sample.db_five_sixty doses).
  - reflexivity.
  - exact H.
  - vm_compute. discriminate.
Defined.

Lemma StronglySorted_filter {A} (R : A -> A -> Prop) (P : A -> Prop)
      `{!forall x, Decision (P x)} (l : list A) :
  StronglySorted R l -> StronglySorted R (filter P l).
Proof.
  induction 1 as [|x l Hs IH Hx]; [constructor|].
  rewrite filter_cons. destruct (decide (P x)); [|exact IH].
  constructor; [exact IH|].
  apply Forall_forall. intros y Hy. apply list_elem_of_filter in Hy as [_ Hy].
  rewrite Forall_forall in Hx. apply Hx, Hy.
Qed.

Lemma get_todays_doses_sorted db user_id now doses :
  get_todays_doses db user_id now = Ok doses ->
  StronglySorted (fun a b => Dose.scheduled_at a <= Dose.scheduled_at b)
                 doses.
Proof.
  unfold get_todays_doses. intros H.
  destruct (meds_loop db user_id now _ _ []) as [due|e]; [|discriminate].
  simpl in H. inversion H. apply StronglySorted_filter.
  apply Sorted_StronglySorted; [|apply sort_Sorted].
  intros a b c Hab Hbc. lia.
Qed.

(** X16. With a nonempty pending/snoozed list, the reminder intent snoozes
    the earliest of its items: the written key is the one of an item no
    later than any other pending or snoozed item; the event under that key
    gets status "snoozed" with [snooze_until] = [now] plus the extracted
    minutes, and the today list then reports that item as "snoozed". *)
Theorem reminder_snoozes_earliest cmd now db doses top rest :
  let text_lower := Py.strip (Py.lower (VoiceCommandIn.text cmd)) in
  let user_id := VoiceCommandIn.user_id cmd in
  let minutes := extract_minutes text_lower in
  is_query_intent text_lower = false ->
  is_reminder_intent text_lower = true ->
  get_todays_doses db user_id now = Ok doses ->
  filter (fun d => is_pending d = true) doses = top :: rest ->
  Forall (fun d => Dose.scheduled_at top <= Dose.scheduled_at d) rest
  /\ exists db',
      voice_command cmd now db = Ok (remind_response minutes, db')
      /\ (exists ev,
             Store.find_one db' (dose_key user_id top) = Some ev
             /\ DoseLog.status ev = Some "snoozed"
             /\ DoseLog.snooze_until ev
                = Some (Datetime.add_minutes now minutes)
             /\ DoseLog.updated_at ev = Some now)
      /\ get_todays_doses db' user_id now
         = Ok (reports_snoozed user_id (dose_key user_id top) <$> doses).
Proof.
  intros text_lower user_id minutes Hq Hr Hd Hp. split.
  - pose proof (get_todays_doses_sorted _ _ _ _ Hd) as Hs.
    apply (StronglySorted_filter _ (fun d => is_pending d = true)) in Hs.
    rewrite Hp in Hs. inversion Hs. assumption.
  - eexists. split.
    + exact (voice_reminder_snoozes_head cmd now db doses top rest
               Hq Hr Hd Hp).
    + split.
      * rewrite find_one_update_one by apply set_snoozed_keeps_key.
        rewrite decide_True by reflexivity.
        eexists. split; [reflexivity|]. repeat split.
      * fold user_id. rewrite get_todays_doses_snoozed, Hd. reflexivity.
Qed.

Lemma reminder_snoozes_earliest_witness :
  let now := Datetime.make Sample.monday 19 55 0 0 in
  let cmd := VoiceCommandIn.mk "Remind me in 10 minutes" "u1" in
  let a := Sample.dose "m1" "Aspirin" "100mg" 8 0 "pending" in
  let b := Sample.dose "m2" "Metformin" "500mg" 20 0 "pending" in
  get_todays_doses Sample.db_morning_evening "u1" now = Ok [a; b]
  /\ exists db',
      voice_command cmd now Sample.db_morning_evening
      = Ok (remind_response 10, db')
      /\ get_todays_doses db' "u1" now
         = Ok (reports_snoozed "u1" (dose_key "u1" a) <$> [a; b]).
Proof.
  intros now cmd a b.
  assert (get_todays_doses Sample.db_morning_evening "u1" now = Ok [a; b])
    as H by (vm_compute; reflexivity).
  split; [exact H|].
  destruct (reminder_snoozes_earliest cmd now Sample.db_morning_evening
              [a; b] a [b]) as (_ & db' & Hv & _ & Ht).
  - reflexivity.
  - reflexivity.
  - exact H.
  - reflexivity.
  - exists db'. split; [exact Hv|exact Ht].
Defined.

Lemma filter_fmap_in {A} (P : A -> Prop) `{!forall x, Decision (P x)}
      (f : A -> A) (l : list A) :
  (forall x, x ∈ l -> (P (f x) <-> P x)) ->
  filter P (f <$> l) = f <$> filter P l.
Proof.
  induction l as [|x l IH]; intros Hf; [reflexivity|].
  rewrite fmap_cons, !filter_cons.
  rewrite IH by (intros y Hy; apply Hf; right; exact Hy).
  destruct (decide (P (f x))) as [Hfx|Hfx], (decide (P x)) as [Hx|Hx];
    try reflexivity; exfalso; (apply Hfx || apply Hx);
    apply (Hf x); try left; assumption.
Qed.

Lemma set_snoozed_twice a b c d lg :
  set_snoozed a b (set_snoozed c d lg) = set_snoozed a b lg.
Proof. reflexivity. Qed.

(** X17. Reminders do not pile up: after a reminder command of a user, a
    later reminder command of the same user on the same UTC date gives
    the response and the store it would have given without the first one;
    the earlier [snooze_until] is replaced, no second event is created. *)
Theorem later_reminder_replaces cmd1 cmd2 now1 now2 db r1 db1 :
  let text1 := Py.strip (Py.lower (VoiceCommandIn.text cmd1)) in
  let text2 := Py.strip (Py.lower (VoiceCommandIn.text cmd2)) in
  VoiceCommandIn.user_id cmd1 = VoiceCommandIn.user_id cmd2 ->
  Datetime.date now1 = Datetime.date now2 ->
  is_query_intent text1 = false -> is_reminder_intent text1 = true ->
  is_query_intent text2 = false -> is_reminder_intent text2 = true ->
  voice_command cmd1 now1 db = Ok (r1, db1) ->
  voice_command cmd2 now2 db1 = voice_command cmd2 now2 db.
Proof.
  intros text1 text2 Hu Hdate Hq1 Hr1 Hq2 Hr2 H1.
  apply voice_command_store in H1
      as [->|(_ & _ & doses & top & rest & Hd & Hp & ->)]; [reflexivity|].
  set (u := VoiceCommandIn.user_id cmd1) in *.
  set (q := dose_key u top).
  rewrite (get_todays_doses_same_date db u now1 now2 Hdate) in Hd.
  unfold voice_command. fold text2. rewrite Hq2, Hr2. rewrite <- Hu.
  fold u. rewrite get_todays_doses_snoozed, Hd. simpl.
  assert (Dose.status top = Some "pending"
          \/ Dose.status top = Some "snoozed") as Htop.
  { assert (top ∈ filter (fun d => is_pending d = true) doses) as Hin
        by (rewrite Hp; left).
    apply list_elem_of_filter in Hin as [Hin _]. unfold is_pending in Hin.
    apply orb_true_iff in Hin as [Hin|Hin];
      apply bool_decide_eq_true in Hin; tauto. }
  pose proof (get_todays_doses_resolved _ _ _ _ Hd) as Hres.
  rewrite Forall_forall in Hres.
  assert (top ∈ doses) as Htin.
  { assert (top ∈ filter (fun d => is_pending d = true) doses) as Hin
        by (rewrite Hp; left).
    apply list_elem_of_filter in Hin. tauto. }
  rewrite filter_fmap_in.
  2:{ intros d Hdin. unfold reports_snoozed.
      destruct (decide (dose_key u d = q)) as [Hk|Hk]; [|reflexivity].
      assert (is_pending d = true) as Hpd.
      { unfold is_pending. rewrite (Hres d Hdin), Hk. unfold q.
        rewrite <- (Hres top Htin).
        destruct Htop as [-> | ->]; reflexivity. }
      rewrite Hpd. split; reflexivity. }
  rewrite Hp. rewrite fmap_cons.
  assert (reports_snoozed u q top = with_status (Some "snoozed") top) as Hf.
  { unfold reports_snoozed. rewrite decide_True by reflexivity.
    reflexivity. }
  rewrite Hf. cbn [with_status Dose.medication_id Dose.scheduled_at].
  do 2 f_equal. unfold Store.update_one. simpl. f_equal.
  fold (dose_key u top). fold q.
  rewrite upsert_upsert by apply set_snoozed_keeps_key.
  apply upsert_ext. intros lg. reflexivity.
Qed.

Lemma later_reminder_replaces_witness :
  let now1 := Datetime.make Sample.monday 7 50 0 0 in
  let now2 := Datetime.make Sample.monday 7 58 0 0 in
  let cmd1 := VoiceCommandIn.mk "Remind me in 10 minutes" "u1" in
  let cmd2 := VoiceCommandIn.mk "Remind me in 30 minutes" "u1" in
  let db := Sample.db_morning_evening in
  exists r1 db1,
    voice_command cmd1 now1 db = Ok (r1, db1)
    /\ voice_command cmd2 now2 db1 = voice_command cmd2 now2 db.
Proof.
  intros now1 now2 cmd1 cmd2 db.
  assert (exists r1 db1, voice_command cmd1 now1 db = Ok (r1, db1))
    as (r1 & db1 & H) by (eexists _, _; vm_compute; reflexivity).
  exists r1, db1. split; [exact H|].
  apply (later_reminder_replaces cmd1 cmd2 now1 now2 db r1 db1);
    try reflexivity. exact H.
Defined.

(** ** [caregiver_compliance] after writes *)

Section ComplianceWrites.
Variable fromisoformat_date : string -> option Z.
Local Abbreviation count := (count_events fromisoformat_date).
Local Abbreviation hit := (hits fromisoformat_date).

Lemma count_cons u d s lg (c : list DoseLog.t) :
  count (filter (fun lg => DoseLog.user_id lg = u) (lg :: c)) d s
  = hit u d s lg + count (filter (fun lg => DoseLog.user_id lg = u) c) d s.
Proof.
  unfold count_events, hits. rewrite filter_cons.
  destruct (decide (DoseLog.user_id lg = u)) as [Hu|Hu].
  - rewrite filter_cons.
    destruct (decide (log_day fromisoformat_date lg = Some d
                      /\ tallied_status lg = s)) as [Hds|Hds].
    + rewrite decide_True by tauto. simpl length. lia.
    + rewrite decide_False by tauto. lia.
  - rewrite decide_False by tauto. lia.
Qed.

Lemma hit_keeps_key u d s set lg :
  keeps_key set -> tallied_status (set lg) = tallied_status lg ->
  hit u d s (set lg) = hit u d s lg.
Proof.
  intros Hk Hs. destruct (Hk lg) as (H1 & _ & H3). unfold hits, log_day.
  rewrite H1, H3, Hs. reflexivity.
Qed.

(** The effect of a write on the tally: the event it replaces leaves its
    bucket, the event it stores enters its own. *)
Lemma count_upsert u d s q set (c : list DoseLog.t) :
  count (filter (fun lg => DoseLog.user_id lg = u) (Store.upsert q set c)) d s
  = count (filter (fun lg => DoseLog.user_id lg = u) c) d s
    - match List.find (Store.matches q) c with
      | Some old => hit u d s old
      | None => 0
      end
    + hit u d s (set (default (Store.fresh q)
                              (List.find (Store.matches q) c))).
Proof.
  induction c as [|lg c IH]; cbn [Store.upsert List.find].
  - rewrite count_cons. simpl. lia.
  - destruct (Store.matches q lg) eqn:E.
    + rewrite !count_cons. simpl. lia.
    + rewrite !count_cons, IH. lia.
Qed.

(** Two stores whose tallies of "missed", "taken" and "pending" agree for a
    user give that user the same calendar. *)
Lemma calendar_ext db1 db2 user_id now :
  (forall d s, s = "missed" \/ s = "taken" \/ s = "pending" ->
               count (Store.find_doselogs db1 user_id) d s
               = count (Store.find_doselogs db2 user_id) d s) ->
  caregiver_compliance fromisoformat_date db1 user_id now
  = caregiver_compliance fromisoformat_date db2 user_id now.
Proof.
  intros H. rewrite !caregiver_compliance_eq.
  apply list_fmap_ext. intros _ d _. cbn zeta.
  rewrite !H by tauto. reflexivity.
Qed.

Lemma hit_other_user u d s lg :
  DoseLog.user_id lg <> u -> hit u d s lg = 0.
Proof. intros H. unfold hits. rewrite decide_False by tauto. reflexivity. Qed.

Lemma hit_other_status u d s lg :
  tallied_status lg <> s -> hit u d s lg = 0.
Proof. intros H. unfold hits. rewrite decide_False by tauto. reflexivity. Qed.

Lemma calendar_after_write_other_user db q set user_id now :
  keeps_key set -> Store.k_user_id q <> user_id ->
  caregiver_compliance fromisoformat_date (Store.update_one db q set)
                       user_id now
  = caregiver_compliance fromisoformat_date db user_id now.
Proof.
  intros Hk Hu. apply calendar_ext. intros d s _.
  unfold Store.find_doselogs, Store.update_one. cbn [doselog].
  rewrite count_upsert.
  assert (forall lg, Store.matches q lg = true -> DoseLog.user_id lg <> user_id)
    as Hm.
  { intros lg Hl. unfold Store.matches in Hl.
    apply andb_true_iff in Hl as [Hl _]. apply andb_true_iff in Hl as [Hl _].
    apply bool_decide_eq_true in Hl. congruence. }
  destruct (List.find (Store.matches q) (doselog db)) as [old|] eqn:E.
  - apply find_some in E as [_ E]. simpl.
    rewrite (hit_other_user _ _ _ old) by (apply Hm, E).
    rewrite hit_other_user; [lia|].
    destruct (Hk old) as (-> & _). apply Hm, E.
  - simpl. rewrite hit_other_user; [lia|].
    destruct (Hk (Store.fresh q)) as (-> & _). exact Hu.
Qed.

(** X18. The compliance calendar of a user is not changed by the writes of
    another user: after [mark_taken] or [snooze] under a key of a
    different user, the calendar is the one before. *)
Theorem calendar_of_other_users db take snz t1 t2 user_id now :
  TakeActionIn.user_id take <> user_id ->
  SnoozeIn.user_id snz <> user_id ->
  caregiver_compliance fromisoformat_date (mark_taken take t1 t2 db)
                       user_id now
  = caregiver_compliance fromisoformat_date db user_id now
  /\ caregiver_compliance fromisoformat_date (snd (snooze snz t1 t2 db))
                          user_id now
     = caregiver_compliance fromisoformat_date db user_id now.
Proof.
  intros H1 H2. unfold mark_taken, snooze. cbn [snd]. split.
  - apply calendar_after_write_other_user;
      [apply set_taken_keeps_key|exact H1].
  - apply calendar_after_write_other_user;
      [apply set_snoozed_keeps_key|exact H2].
Qed.

(** X19. Snoozing a dose that has no stored event, or whose stored event is
    already "snoozed", changes no compliance calendar: snoozed events are
    in no bucket the day rule reads. *)
Theorem snooze_leaves_calendar db snz t1 t2 user_id now :
  let q := Store.mkKey (SnoozeIn.user_id snz) (SnoozeIn.medication_id snz)
                       (SnoozeIn.scheduled_at snz) in
  match Store.find_one db q with
  | None => True
  | Some ev => DoseLog.status ev = Some "snoozed"
  end ->
  caregiver_compliance fromisoformat_date (snd (snooze snz t1 t2 db))
                       user_id now
  = caregiver_compliance fromisoformat_date db user_id now.
Proof.
  intros q Hold. unfold snooze. cbn [snd]. fold q.
  apply calendar_ext. intros d s Hs.
  unfold Store.find_doselogs, Store.update_one. cbn [doselog].
  rewrite count_upsert. unfold Store.find_one in Hold.
  assert (forall lg, tallied_status lg = "snoozed" -> hit user_id d s lg = 0)
    as Hz.
  { intros lg Hl. apply hit_other_status. rewrite Hl.
    destruct Hs as [->|[->| ->]]; discriminate. }
  rewrite (Hz (set_snoozed _ _ _)) by reflexivity.
  destruct (List.find (Store.matches q) (doselog db)) as [old|]; [|lia].
  rewrite (Hz old); [lia|]. unfold tallied_status. rewrite Hold. reflexivity.
Qed.

Lemma upsert_Forall (P : DoseLog.t -> Prop) q set (c : list DoseLog.t) :
  (forall lg, P (set lg)) -> Forall P c -> Forall P (Store.upsert q set c).
Proof.
  intros Hs. induction 1 as [|lg c Hl Hc IH]; simpl.
  - constructor; [apply Hs|constructor].
  - destruct (Store.matches q lg); constructor; auto.
Qed.

Lemma count_none (logs : list DoseLog.t) d s :
  Forall (fun lg => tallied_status lg <> s) logs -> count logs d s = 0.
Proof.
  intros H. unfold count_events.
  induction H as [|lg logs Hl _ IH]; [reflexivity|].
  rewrite filter_cons_False by tauto. exact IH.
Qed.

Lemma written_statuses_tallied db user_id s :
  written_statuses db -> s <> "taken" -> s <> "snoozed" ->
  Forall (fun lg => tallied_status lg <> s) (Store.find_doselogs db user_id).
Proof.
  intros H Ht Hs. unfold written_statuses in H. rewrite Forall_forall in H.
  apply Forall_forall. intros lg Hl. unfold Store.find_doselogs in Hl.
  apply list_elem_of_filter in Hl as [_ Hl]. unfold tallied_status.
  destruct (H lg Hl) as [-> | ->]; simpl; congruence.
Qed.

Lemma calendar_of_written db user_id now :
  written_statuses db ->
  caregiver_compliance fromisoformat_date db user_id now
  = (fun d =>
       CalendarEntry.mk d
         (if decide (0 < count (Store.find_doselogs db user_id) d "taken")
          then "taken" else "pending"))
      <$> seqZ (Datetime.date now - 30) 31.
Proof.
  intros H. rewrite caregiver_compliance_eq. apply list_fmap_ext.
  intros _ d _. cbn zeta. f_equal.
  rewrite (count_none _ d "missed"), (count_none _ d "pending")
    by (apply written_statuses_tallied; [exact H|discriminate|discriminate]).
  unfold day_rule. rewrite decide_False by lia.
  destruct (decide (0 < count (Store.find_doselogs db user_id) d "taken")).
  - rewrite decide_True by lia. reflexivity.
  - rewrite decide_False by lia. reflexivity.
Qed.
End ComplianceWrites.

(** X20. The handlers write no status but "taken" and "snoozed": if every
    stored event has one of these two statuses before [mark_taken],
    [snooze] or a voice command, every stored event has one after. *)
Theorem writes_keep_written_statuses db :
  written_statuses db ->
  (forall take t1 t2, written_statuses (mark_taken take t1 t2 db))
  /\ (forall snz t1 t2, written_statuses (snd (snooze snz t1 t2 db)))
  /\ (forall cmd now r db',
        voice_command cmd now db = Ok (r, db') -> written_statuses db').
Proof.
  intros Hw. split; [|split].
  - intros take t1 t2. unfold written_statuses, mark_taken, Store.update_one.
    simpl. apply upsert_Forall; [intros lg; left; reflexivity|exact Hw].
  - intros snz t1 t2. unfold written_statuses, snooze, Store.update_one.
    simpl. apply upsert_Forall; [intros lg; right; reflexivity|exact Hw].
  - intros cmd now r db' H.
    apply voice_command_store in H
        as [->|(_ & _ & doses & top & rest & _ & _ & ->)]; [exact Hw|].
    unfold written_statuses, Store.update_one. simpl.
    apply upsert_Forall; [intros lg; right; reflexivity|exact Hw].
Qed.

Lemma writes_keep_written_statuses_witness :
  written_statuses Sample.db_snoozed_day
  /\ written_statuses (mark_taken Sample.take_m1_0800 0 0
                                  Sample.db_snoozed_day).
Proof.
  assert (written_statuses Sample.db_snoozed_day) as H
      by (repeat constructor; right; reflexivity).
  split; [exact H|].
  apply (writes_keep_written_statuses Sample.db_snoozed_day H).
Defined.

(** X21. On a store whose events all have status "taken" or "snoozed" (all
    that the handlers write), the calendar never shows "missed": a day is
    "taken" when at least one of its events is taken, whatever the others
    are, and "pending" otherwise. *)
Theorem calendar_of_written_store fromisoformat_date db user_id now :
  written_statuses db ->
  Forall (fun e =>
            CalendarEntry.status e
            = if decide (0 < count_events fromisoformat_date
                               (Store.find_doselogs db user_id)
                               (CalendarEntry.date e) "taken")
              then "taken" else "pending")
         (caregiver_compliance fromisoformat_date db user_id now)
  /\ Forall (fun e => CalendarEntry.status e <> "missed")
            (caregiver_compliance fromisoformat_date db user_id now).
Proof.
  intros H. rewrite calendar_of_written by exact H.
  split; apply Forall_fmap, Forall_forall; intros d _; simpl.
  - reflexivity.
  - destruct (decide _); discriminate.
Qed.

Lemma calendar_of_written_store_witness :
  written_statuses Sample.db_snoozed_day
  /\ Forall (fun e => CalendarEntry.status e <> "missed")
            (caregiver_compliance (fun _ => None) Sample.db_snoozed_day "u1"
               (Datetime.make Sample.monday 12 0 0 0)).
Proof.
  assert (written_statuses Sample.db_snoozed_day) as H
      by (repeat constructor; right; reflexivity).
  split; [exact H|].
  apply (calendar_of_written_store (fun _ => None) Sample.db_snoozed_day "u1"
           (Datetime.make Sample.monday 12 0 0 0) H).
Defined.

Lemma calendar_of_other_users_witness :
  let now := Datetime.make Sample.monday 12 0 0 0 in
  let take := TakeActionIn.mk "u2" "m1" (Datetime.make Sample.monday 8 0 0 0) in
  caregiver_compliance (fun _ => None)
    (mark_taken take now now Sample.db_snoozed_day) "u1" now
  = caregiver_compliance (fun _ => None) Sample.db_snoozed_day "u1" now.
Proof.
  intros now take.
  apply (calendar_of_other_users (fun _ => None) Sample.db_snoozed_day take
           (SnoozeIn.mk "u2" "m1" 0 15) now now "u1" now); discriminate.
Defined.

Lemma snooze_leaves_calendar_witness :
  let now := Datetime.make Sample.monday 12 0 0 0 in
  let snz := SnoozeIn.mk "u1" "m1" (Datetime.make Sample.monday 8 0 0 0) 15 in
  caregiver_compliance (fun _ => None)
    (snd (snooze snz now now Sample.db_snoozed_day)) "u1" now
  = caregiver_compliance (fun _ => None) Sample.db_snoozed_day "u1" now.
Proof.
  intros now snz.
  apply (snooze_leaves_calendar (fun _ => None) Sample.db_snoozed_day snz
           now now "u1" now).
  reflexivity.
Defined.

(** X22. On a store whose events all have status "taken" or "snoozed",
    taking one dose of a day of the window makes the calendar of that user
    show the day as "taken", whether or not the other doses of the day were
    taken. *)
Theorem mark_taken_day_is_taken fromisoformat_date db user_id medication_id
        scheduled_at t1 t2 now :
  let take := TakeActionIn.mk user_id medication_id scheduled_at in
  let d := Datetime.date scheduled_at in
  written_statuses db ->
  Datetime.date now - 30 <= d <= Datetime.date now ->
  CalendarEntry.mk d "taken"
  ∈ caregiver_compliance fromisoformat_date (mark_taken take t1 t2 db)
                         user_id now.
Proof.
  intros take d Hw Hd.
  assert (written_statuses (mark_taken take t1 t2 db)) as Hw'.
  { unfold written_statuses, mark_taken, Store.update_one. simpl.
    apply upsert_Forall; [intros lg; left; reflexivity|exact Hw]. }
  rewrite calendar_of_written by exact Hw'.
  apply list_elem_of_fmap. exists d. split; [|apply elem_of_seqZ; lia].
  rewrite decide_True; [reflexivity|].
  set (q := take_key take).
  assert (exists ev, Store.find_one (mark_taken take t1 t2 db) q = Some ev
                     /\ DoseLog.status ev = Some "taken") as (ev & Hf & Hs).
  { unfold mark_taken. fold (take_key take). fold q.
    rewrite find_one_update_one by apply set_taken_keeps_key.
    rewrite decide_True by reflexivity. eexists. split; reflexivity. }
  unfold Store.find_one in Hf. apply find_some in Hf as [Hin Hm].
  unfold Store.matches in Hm.
  apply andb_true_iff in Hm as [Hm H3]. apply andb_true_iff in Hm as [H1 H2].
  apply bool_decide_eq_true in H1, H2, H3.
  unfold count_events.
  assert (ev ∈ filter
            (fun lg => log_day fromisoformat_date lg = Some d
                       /\ tallied_status lg = "taken")
            (Store.find_doselogs (mark_taken take t1 t2 db) user_id)) as He.
  { apply list_elem_of_filter. split.
    - split.
      + unfold log_day. rewrite H3. reflexivity.
      + unfold tallied_status. rewrite Hs. reflexivity.
    - unfold Store.find_doselogs. apply list_elem_of_filter.
      split; [exact H1|]. apply list_elem_of_In, Hin. }
  destruct (filter _ _); [inversion He|simpl; lia].
Qed.

Lemma mark_taken_day_is_taken_witness :
  let now := Datetime.make Sample.monday 12 0 0 0 in
  written_statuses Sample.db_snoozed_day
  /\ CalendarEntry.mk Sample.monday "taken"
     ∈ caregiver_compliance (fun _ => None)
         (mark_taken (TakeActionIn.mk "u1" "m2"
                        (Datetime.make Sample.monday 20 0 0 0))
                     now now Sample.db_snoozed_day)
         "u1" now.
Proof.
  intros now.
  assert (written_statuses Sample.db_snoozed_day) as H
      by (repeat constructor; right; reflexivity).
  split; [exact H|].
  apply (mark_taken_day_is_taken (fun _ => None) Sample.db_snoozed_day "u1"
           "m2" (Datetime.make Sample.monday 20 0 0 0) now now now H).
  vm_compute. split; intros Hc; discriminate Hc.
Defined.

(** ** [compute_current_window] *)

Lemma compute_current_window_eq now :
  compute_current_window now = now - now mod Datetime.us_per_minute.
Proof.
  unfold compute_current_window, Datetime.make, Datetime.date, hour_of,
    minute_of, Datetime.us_per_day, Datetime.us_per_hour,
    Datetime.us_per_minute, Datetime.us_per_second.
  change (24 * (60 * (60 * 1000000))) with 86400000000.
  change (60 * (60 * 1000000)) with 3600000000.
  change (60 * 1000000) with 60000000.
  Z.div_mod_to_equations. lia.
Qed.

(** X23. [compute_current_window] rounds an instant down to the minute: the
    result is a whole minute, at most [now] and less than a minute before
    it, on the same date, at the same hour and minute; applying it again
    changes nothing. *)
Theorem compute_current_window_truncates now :
  let w := compute_current_window now in
  w mod Datetime.us_per_minute = 0
  /\ w <= now < w + Datetime.us_per_minute
  /\ Datetime.date w = Datetime.date now
  /\ hour_of w = hour_of now
  /\ minute_of w = minute_of now
  /\ compute_current_window w = w.
Proof.
  intros w. subst w. rewrite !compute_current_window_eq.
  unfold Datetime.date, hour_of, minute_of, Datetime.us_per_day,
    Datetime.us_per_hour, Datetime.us_per_minute, Datetime.us_per_second.
  change (24 * (60 * (60 * 1000000))) with 86400000000.
  change (60 * (60 * 1000000)) with 3600000000.
  change (60 * 1000000) with 60000000.
  repeat split; Z.div_mod_to_equations; lia.
Qed.
